(** * libbcc execution engine: the [Script] orchestrator

    A shallow embedding of [lib/ExecutionEngine/Script.cpp].  A [Script] owns
    up to two source descriptors, decides between loading a cached artifact
    and compiling afresh, and answers export-metadata queries by delegating
    to the artifact that is active.

    The embedding is of the build with [USE_CACHE] and [USE_MCJIT] enabled
    (with [USE_CACHE] on and [USE_MCJIT] off the translation unit does not
    compile: [reader] and [writer] are declared under [USE_MCJIT] only).

    Conventions.
    - An [int] status is a [Z]; [0] is success.
    - A [char const*] is an [option string] ([None] is [NULL]); a [void*] or
      a function pointer is an address in [N] ([0] is [NULL]).
    - A nullable owning pointer to an object is an [option] of its value; a
      method that mutates the object returns the new value.
    - The classes the file only uses (source descriptors, the two artifact
      kinds, the cache codec, [FileHandle]) are an interface: their
      deterministic methods are the fields of [Backend], and what the
      outside world answers during one call (allocation, files, system
      properties) is the [Env] passed to that call. *)

From Stdlib Require Import ZArith NArith.
From Stdlib.Strings Require Import Byte Ascii.
From stdpp Require Import base option list strings gmap.

Open Scope Z_scope.

(** ** Plain data *)

Definition bytes := list Byte.byte.

(** [void*], function pointers: an address, [0] for [NULL]. *)
Definition ptr := N.
Definition NULL : ptr := 0%N.
Definition is_null (p : ptr) : bool := N.eqb p 0.

(** Error codes stored in [mErrorCode]. *)
Inductive ErrorCode :=
| BCC_NO_ERROR
| BCC_INVALID_VALUE
| BCC_INVALID_OPERATION
| BCC_OUT_OF_MEMORY.

Module ScriptStatus.

Inductive t := Unknown | Compiled | Cached.

Definition eqb (a b : t) : bool :=
  match a, b with
  | Unknown, Unknown | Compiled, Compiled | Cached, Cached => true
  | _, _ => false
  end.

End ScriptStatus.

Module ScriptObject.

Inductive t := Unknown | Relocatable | SharedObject | Executable.

End ScriptObject.

Module OpenMode.

Inductive t := Read | Write.

End OpenMode.

#[global] Instance ErrorCode_eq_dec : EqDecision ErrorCode.
Proof. solve_decision. Defined.
#[global] Instance ScriptStatus_eq_dec : EqDecision ScriptStatus.t.
Proof. solve_decision. Defined.
#[global] Instance ScriptObject_eq_dec : EqDecision ScriptObject.t.
Proof. solve_decision. Defined.

(** One entry of the dependency list handed to the cache reader/writer:
    resource kind, path, SHA-1. *)
Record Dependency := {
  dep_kind : N;
  dep_path : option string;
  dep_sha1 : bytes
}.

(** ** The outside world

    Files on disk, and the calls the Script made on its collaborators, each
    stamped with [mStatus] at the moment of the call. *)

Inductive Event :=
| CallNewScriptCompiled
| CallPrepareModule (idx : nat)
| CallReadModule
| CallLinkModule
| CallCompile
| CallCheckCacheFile
| CallReadCacheFile
| CallWriteCacheFile
| CallSymbolLookup (name : string)
| CallRegisterObjectWithGDB (elf : option bytes) (size : N).

Record World := {
  files : gmap string bytes;
  trace : list (Event * ScriptStatus.t)
}.

Definition set_files (f : gmap string bytes) (w : World) : World :=
  {| files := f; trace := trace w |}.

Definition log (e : Event) (st : ScriptStatus.t) (w : World) : World :=
  {| files := files w; trace := trace w ++ [(e, st)] |}.

(** [size_t] is 64 bits wide on the target; [static_cast<size_t>] of a
    signed value wraps. *)
Definition SIZE_WIDTH : Z := 64.
Definition to_size_t (z : Z) : Z := z mod 2 ^ SIZE_WIDTH.

(** ** Collaborator interfaces *)

(** CompilerOption.h, the two members the Script sets. *)
Record CompilerOption (RelocModel : Type) := {
  RelocModelOpt : RelocModel;
  LoadAfterCompile : bool
}.
Arguments RelocModelOpt {_} _.
Arguments LoadAfterCompile {_} _.

(** The query surface both artifact kinds offer ([ScriptCompiled],
    [ScriptCached]).  A list-fill method gets the capacity and the caller's
    buffer and gives the buffer back as it left it. *)
Class ArtifactQueries (A FuncInfo : Type) := {
  a_lookup : A → option string → ptr;
  a_getExportVarCount : A → N;
  a_getExportFuncCount : A → N;
  a_getExportForEachCount : A → N;
  a_getPragmaCount : A → N;
  a_getFuncCount : A → N;
  a_getObjectSlotCount : A → N;
  a_getExportVarList : A → N → list ptr → list ptr;
  a_getExportFuncList : A → N → list ptr → list ptr;
  a_getExportForEachList : A → N → list ptr → list ptr;
  a_getPragmaList :
    A → N → list (option string) → list (option string) →
    list (option string) * list (option string);
  a_getFuncInfoList : A → N → list FuncInfo → list FuncInfo;
  a_getObjectSlotList : A → N → list N → list N;
  a_getELFSize : A → N;
  a_getELF : A → option bytes
}.

Class Backend := {
  SourceInfo : Type;
  ScriptCompiled : Type;
  ScriptCached : Type;
  LLVMModule : Type;
  LLVMContext : Type;
  FuncInfo : Type;
  RelocModel : Type;

  (* CompilerOption.h: what a default-constructed option holds *)
  default_RelocModelOpt : RelocModel;
  default_LoadAfterCompile : bool;

  (* Config.h / build flags *)
  TARGET_BUILD : bool;
  BCC_FILE_RESOURCE : N;

  (* Sha1Helper.h *)
  pathLibBCC_SHA1 : option string;
  sha1LibBCC_SHA1 : bytes;
  pathLibRS : option string;
  sha1LibRS : bytes;

  (* Script.h: the two cache file names made of mCacheDir and mCacheName *)
  cachedObjectPath : string → string → string;
  cacheInfoPath : string → string → string;

  (* SourceInfo *)
  si_prepareModule : SourceInfo → option LLVMContext → Z * SourceInfo;
  si_getContext : SourceInfo → option LLVMContext;
  si_getModule : SourceInfo → option LLVMModule;
  si_introDependency : SourceInfo → list Dependency → list Dependency;

  (* ScriptCompiled *)
  sc_registerSymbolCallback : ScriptCompiled → ptr → ptr → ScriptCompiled;
  sc_readModule : ScriptCompiled → option LLVMModule → Z * ScriptCompiled;
  sc_linkModule : ScriptCompiled → option LLVMModule → Z * ScriptCompiled;
  sc_compile : ScriptCompiled → CompilerOption RelocModel → Z * ScriptCompiled;
  (* a char const*: the last error message, NULL when there is none *)
  sc_getCompilerErrorMessage : ScriptCompiled → option string;
  sc_getExportVarNameList : ScriptCompiled → list string → list string;
  sc_getExportFuncNameList : ScriptCompiled → list string → list string;
  sc_getExportForEachNameList : ScriptCompiled → list string → list string;
  sc_queries :: ArtifactQueries ScriptCompiled FuncInfo;

  (* ScriptCached *)
  cached_isLibRSThreadable : ScriptCached → bool;
  cached_queries :: ArtifactQueries ScriptCached FuncInfo
}.

Section Script.
Context `{B : Backend}.

Definition CompilerOption_default : CompilerOption RelocModel :=
  {| RelocModelOpt := default_RelocModelOpt;
     LoadAfterCompile := default_LoadAfterCompile |}.

(** [MCCacheReader] / [MCCacheWriter] as far as the Script fills them in:
    the registered symbol callback and the dependency list. *)
Record CacheCodec := {
  codec_lookupFn : ptr;
  codec_lookupFnContext : ptr;
  codec_deps : list Dependency
}.

Definition codec_new : CacheCodec :=
  {| codec_lookupFn := NULL; codec_lookupFnContext := NULL; codec_deps := [] |}.

Definition codec_registerSymbolCallback (fn ctx : ptr) (c : CacheCodec) :=
  {| codec_lookupFn := fn; codec_lookupFnContext := ctx;
     codec_deps := codec_deps c |}.

Definition codec_addDependency (k : N) (p : option string) (h : bytes)
    (c : CacheCodec) : CacheCodec :=
  {| codec_lookupFn := codec_lookupFn c;
     codec_lookupFnContext := codec_lookupFnContext c;
     codec_deps := codec_deps c ++ [{| dep_kind := k; dep_path := p; dep_sha1 := h |}] |}.

Definition codec_introDependency (si : SourceInfo) (c : CacheCodec) : CacheCodec :=
  {| codec_lookupFn := codec_lookupFn c;
     codec_lookupFnContext := codec_lookupFnContext c;
     codec_deps := si_introDependency si (codec_deps c) |}.

(** What the outside answers during one call. *)
Record Env := {
  (* SourceInfo::createFrom*: NULL when the descriptor cannot be built *)
  env_createFromBuffer : option string → option bytes → N → N → option SourceInfo;
  env_createFromModule : LLVMModule → N → option SourceInfo;
  env_createFromFile : option string → N → option SourceInfo;
  (* new (std::nothrow) ScriptCompiled(this) *)
  env_newScriptCompiled : option ScriptCompiled;
  (* property_get(key, buf, default) *)
  env_property_get : string → string → string;
  (* whether FileHandle::open is let through, and how much one write writes *)
  env_open_ok : string → OpenMode.t → bool;
  env_write : option bytes → N → Z;
  (* the cache codec *)
  env_checkCacheFile : CacheCodec → string → string → bool;
  env_readCacheFile : CacheCodec → string → string → option ScriptCached;
  env_isContextSlotNotAvail : bool;
  env_writeCacheFile : CacheCodec → N → bool * bytes * bytes;
  (* calling through mpExtSymbolLookupFn *)
  env_symbolLookup : ptr → ptr → string → ptr
}.

(** ** The Script object *)

(** The members that the functions of Script.cpp read and write.
    Modelled from the spec: the class is declared in Script.h, which is not
    among the sources; the spec's data model has, beside the status tag, two
    nullable artifact pointers, two source slots, the cache location, the
    sticky error code, the symbol resolver and the object type. *)

Record Script := {
  mErrorCode : ErrorCode;
  mStatus : ScriptStatus.t;
  mObjectType : ScriptObject.t;
  mCompiled : option ScriptCompiled;
  mCached : option ScriptCached;
  mSourceList : list (option SourceInfo);
  mCacheDir : string;
  mCacheName : string;
  mIsContextSlotNotAvail : bool;
  mpExtSymbolLookupFn : ptr;
  mpExtSymbolLookupFnContext : ptr
}.

Definition set_mErrorCode (v : ErrorCode) (s : Script) : Script :=
  {| mErrorCode := v; mStatus := mStatus s; mObjectType := mObjectType s;
     mCompiled := mCompiled s; mCached := mCached s;
     mSourceList := mSourceList s; mCacheDir := mCacheDir s;
     mCacheName := mCacheName s;
     mIsContextSlotNotAvail := mIsContextSlotNotAvail s;
     mpExtSymbolLookupFn := mpExtSymbolLookupFn s;
     mpExtSymbolLookupFnContext := mpExtSymbolLookupFnContext s |}.

Definition set_mStatus (v : ScriptStatus.t) (s : Script) : Script :=
  {| mErrorCode := mErrorCode s; mStatus := v; mObjectType := mObjectType s;
     mCompiled := mCompiled s; mCached := mCached s;
     mSourceList := mSourceList s; mCacheDir := mCacheDir s;
     mCacheName := mCacheName s;
     mIsContextSlotNotAvail := mIsContextSlotNotAvail s;
     mpExtSymbolLookupFn := mpExtSymbolLookupFn s;
     mpExtSymbolLookupFnContext := mpExtSymbolLookupFnContext s |}.

Definition set_mObjectType (v : ScriptObject.t) (s : Script) : Script :=
  {| mErrorCode := mErrorCode s; mStatus := mStatus s; mObjectType := v;
     mCompiled := mCompiled s; mCached := mCached s;
     mSourceList := mSourceList s; mCacheDir := mCacheDir s;
     mCacheName := mCacheName s;
     mIsContextSlotNotAvail := mIsContextSlotNotAvail s;
     mpExtSymbolLookupFn := mpExtSymbolLookupFn s;
     mpExtSymbolLookupFnContext := mpExtSymbolLookupFnContext s |}.

Definition set_mCompiled (v : option ScriptCompiled) (s : Script) : Script :=
  {| mErrorCode := mErrorCode s; mStatus := mStatus s;
     mObjectType := mObjectType s;
     mCompiled := v; mCached := mCached s;
     mSourceList := mSourceList s; mCacheDir := mCacheDir s;
     mCacheName := mCacheName s;
     mIsContextSlotNotAvail := mIsContextSlotNotAvail s;
     mpExtSymbolLookupFn := mpExtSymbolLookupFn s;
     mpExtSymbolLookupFnContext := mpExtSymbolLookupFnContext s |}.

Definition set_mCached (v : option ScriptCached) (s : Script) : Script :=
  {| mErrorCode := mErrorCode s; mStatus := mStatus s;
     mObjectType := mObjectType s;
     mCompiled := mCompiled s; mCached := v;
     mSourceList := mSourceList s; mCacheDir := mCacheDir s;
     mCacheName := mCacheName s;
     mIsContextSlotNotAvail := mIsContextSlotNotAvail s;
     mpExtSymbolLookupFn := mpExtSymbolLookupFn s;
     mpExtSymbolLookupFnContext := mpExtSymbolLookupFnContext s |}.

Definition set_mSourceList (v : list (option SourceInfo)) (s : Script) : Script :=
  {| mErrorCode := mErrorCode s; mStatus := mStatus s;
     mObjectType := mObjectType s;
     mCompiled := mCompiled s; mCached := mCached s;
     mSourceList := v; mCacheDir := mCacheDir s;
     mCacheName := mCacheName s;
     mIsContextSlotNotAvail := mIsContextSlotNotAvail s;
     mpExtSymbolLookupFn := mpExtSymbolLookupFn s;
     mpExtSymbolLookupFnContext := mpExtSymbolLookupFnContext s |}.

Definition set_mCacheDir (v : string) (s : Script) : Script :=
  {| mErrorCode := mErrorCode s; mStatus := mStatus s;
     mObjectType := mObjectType s;
     mCompiled := mCompiled s; mCached := mCached s;
     mSourceList := mSourceList s; mCacheDir := v;
     mCacheName := mCacheName s;
     mIsContextSlotNotAvail := mIsContextSlotNotAvail s;
     mpExtSymbolLookupFn := mpExtSymbolLookupFn s;
     mpExtSymbolLookupFnContext := mpExtSymbolLookupFnContext s |}.

Definition set_mCacheName (v : string) (s : Script) : Script :=
  {| mErrorCode := mErrorCode s; mStatus := mStatus s;
     mObjectType := mObjectType s;
     mCompiled := mCompiled s; mCached := mCached s;
     mSourceList := mSourceList s; mCacheDir := mCacheDir s;
     mCacheName := v;
     mIsContextSlotNotAvail := mIsContextSlotNotAvail s;
     mpExtSymbolLookupFn := mpExtSymbolLookupFn s;
     mpExtSymbolLookupFnContext := mpExtSymbolLookupFnContext s |}.

Definition set_mIsContextSlotNotAvail (v : bool) (s : Script) : Script :=
  {| mErrorCode := mErrorCode s; mStatus := mStatus s;
     mObjectType := mObjectType s;
     mCompiled := mCompiled s; mCached := mCached s;
     mSourceList := mSourceList s; mCacheDir := mCacheDir s;
     mCacheName := mCacheName s;
     mIsContextSlotNotAvail := v;
     mpExtSymbolLookupFn := mpExtSymbolLookupFn s;
     mpExtSymbolLookupFnContext := mpExtSymbolLookupFnContext s |}.

Definition set_callback (fn ctx : ptr) (s : Script) : Script :=
  {| mErrorCode := mErrorCode s; mStatus := mStatus s;
     mObjectType := mObjectType s;
     mCompiled := mCompiled s; mCached := mCached s;
     mSourceList := mSourceList s; mCacheDir := mCacheDir s;
     mCacheName := mCacheName s;
     mIsContextSlotNotAvail := mIsContextSlotNotAvail s;
     mpExtSymbolLookupFn := fn;
     mpExtSymbolLookupFnContext := ctx |}.


(** [mSourceList[idx]].  The array has two elements; an index past it is
    undefined behaviour in C++, and here reads [NULL] and writes nothing. *)
Definition source_at (idx : nat) (s : Script) : option SourceInfo :=
  mjoin (mSourceList s !! idx).

Definition set_source (idx : nat) (v : option SourceInfo) (s : Script) : Script :=
  set_mSourceList (<[idx := v]> (mSourceList s)) s.

(** [p->m(...)] through a nullable pointer.  Calling through [NULL] is
    undefined behaviour in C++ (the process dies); the embedding answers
    [junk] there, which stands for no behaviour of the source.  What a
    function built on [deref] returns describes the source only where the
    pointer it calls through is not null; [null_artifact] below says when
    it is. *)
Definition deref {A R : Type} (p : option A) (junk : R) (m : A → R) : R :=
  match p with
  | Some a => m a
  | None => junk
  end.

(** Modelled from the spec: the constructor is declared in Script.h, which is
    not among the sources.  A fresh Script is in state Unknown, holds no
    artifact, no source, no cache location and no symbol resolver. *)
Definition Script_new : Script :=
  {| mErrorCode := BCC_NO_ERROR;
     mStatus := ScriptStatus.Unknown;
     mObjectType := ScriptObject.Unknown;
     mCompiled := None; mCached := None;
     mSourceList := [None; None];
     mCacheDir := ""; mCacheName := "";
     mIsContextSlotNotAvail := false;
     mpExtSymbolLookupFn := NULL;
     mpExtSymbolLookupFnContext := NULL |}.

(** ** Files *)

(** Modelled from the spec: [FileHandle] and the system calls (FileHandle.h,
    unistd.h and sys/stat.h are not among the sources).  Opening for reading
    needs the file to be there; opening for writing creates it empty; an open
    that fails leaves the disk as it was.  A handle is named by its path. *)
Definition fh_open (env : Env) (path : string) (mode : OpenMode.t) (w : World)
    : Z * World :=
  match mode with
  | OpenMode.Read =>
      if env_open_ok env path mode && bool_decide (is_Some (files w !! path))
      then (0, w) else (-1, w)
  | OpenMode.Write =>
      if env_open_ok env path mode
      then (0, set_files (<[path := []]> (files w)) w) else (-1, w)
  end.

Definition fh_write (env : Env) (path : string) (buf : option bytes) (size : N)
    (w : World) : Z * World :=
  let n := env_write env buf size in
  if 0 <? n
  then (n, set_files (alter (λ old, old ++ take (Z.to_nat n) (default [] buf))
                            path (files w)) w)
  else (n, w).

Definition fh_truncate (path : string) (w : World) : World :=
  set_files (alter (λ _, []) path (files w)) w.

Definition unlink (path : string) (w : World) : Z * World :=
  match files w !! path with
  | Some _ => (0, set_files (delete path (files w)) w)
  | None => (-1, w)
  end.

Definition stat (path : string) (w : World) : Z :=
  if bool_decide (is_Some (files w !! path)) then 0 else -1.

(** ** Strings *)

Definition string_empty (s : string) : bool :=
  match s with
  | EmptyString => true
  | String _ _ => false
  end.

(** [*s.rbegin()], for a non-empty [s]. *)
Fixpoint string_last (s : string) : option ascii :=
  match s with
  | EmptyString => None
  | String c r =>
      match r with
      | EmptyString => Some c
      | String _ _ => string_last r
      end
  end.

Definition push_back (c : ascii) (s : string) : string :=
  s +:+ String c EmptyString.

Definition slash : ascii := "/"%char.

Definition ends_with_slash (s : string) : bool :=
  bool_decide (string_last s = Some slash).

(** How [internalLoadCache] leaves [mCacheDir], given the argument. *)
Definition sanitized (dir : string) : string :=
  if negb (string_empty dir) && negb (ends_with_slash dir)
  then push_back slash dir else dir.

(** ** Adding sources *)

Definition addSourceBC (env : Env) (idx : nat) (resName : option string)
    (bitcode : option bytes) (bitcodeSize : N) (flags : N) (s : Script)
    : Z * Script :=
  match resName with
  | None => (1, set_mErrorCode BCC_INVALID_VALUE s)
  | Some _ =>
  if negb (ScriptStatus.eqb (mStatus s) ScriptStatus.Unknown)
  then (1, set_mErrorCode BCC_INVALID_OPERATION s)
  else
  match bitcode with
  | None => (1, set_mErrorCode BCC_INVALID_VALUE s)
  | Some _ =>
  let s := set_source idx
             (env_createFromBuffer env resName bitcode bitcodeSize flags) s in
  match source_at idx s with
  | None => (1, set_mErrorCode BCC_OUT_OF_MEMORY s)
  | Some _ => (0, s)
  end
  end
  end.

Definition addSourceModule (env : Env) (idx : nat) (module : option LLVMModule)
    (flags : N) (s : Script) : Z * Script :=
  if negb (ScriptStatus.eqb (mStatus s) ScriptStatus.Unknown)
  then (1, set_mErrorCode BCC_INVALID_OPERATION s)
  else
  match module with
  | None => (1, set_mErrorCode BCC_INVALID_VALUE s)
  | Some m =>
  let s := set_source idx (env_createFromModule env m flags) s in
  match source_at idx s with
  | None => (1, set_mErrorCode BCC_OUT_OF_MEMORY s)
  | Some _ => (0, s)
  end
  end.

Definition addSourceFile (env : Env) (idx : nat) (path : option string)
    (flags : N) (s : Script) (w : World) : Z * Script :=
  if negb (ScriptStatus.eqb (mStatus s) ScriptStatus.Unknown)
  then (1, set_mErrorCode BCC_INVALID_OPERATION s)
  else
  match path with
  | None => (1, set_mErrorCode BCC_INVALID_VALUE s)
  | Some p =>
  if negb (stat p w =? 0)
  then (1, set_mErrorCode BCC_INVALID_VALUE s)
  else
  let s := set_source idx (env_createFromFile env path flags) s in
  match source_at idx s with
  | None => (1, set_mErrorCode BCC_OUT_OF_MEMORY s)
  | Some _ => (0, s)
  end
  end.

(** ** Queries on the artifact used by the pipeline *)

(** In state Compiled line 481 calls through [mCompiled] without a test:
    with a NULL [mCompiled] the source is undefined there (see [deref]). *)
Definition getCompilerErrorMessage (s : Script) : option string * Script :=
  if negb (ScriptStatus.eqb (mStatus s) ScriptStatus.Compiled)
  then (None, set_mErrorCode BCC_INVALID_OPERATION s)
  else (deref (mCompiled s) None sc_getCompilerErrorMessage, s).

Definition getELFSize (s : Script) : N :=
  match mStatus s with
  | ScriptStatus.Compiled => deref (mCompiled s) 0%N a_getELFSize
  | ScriptStatus.Cached => deref (mCached s) 0%N a_getELFSize
  | _ => 0%N
  end.

Definition getELF (s : Script) : option bytes :=
  match mStatus s with
  | ScriptStatus.Compiled => deref (mCompiled s) None a_getELF
  | ScriptStatus.Cached => deref (mCached s) None a_getELF
  | _ => None
  end.

(** ** Cache eligibility *)

Definition getBooleanProp (env : Env) (str : string) : bool :=
  negb (String.eqb (env_property_get env str "0") "0").

Definition isCacheable (env : Env) (s : Script) : bool :=
  if getBooleanProp env "debug.bcc.nocache" then false
  else if string_empty (mCacheDir s) || string_empty (mCacheName s) then false
  else true.

Definition getCachedObjectPath (s : Script) : string :=
  cachedObjectPath (mCacheDir s) (mCacheName s).

Definition getCacheInfoPath (s : Script) : string :=
  cacheInfoPath (mCacheDir s) (mCacheName s).

(** The loop [for i in 0..2: if (mSourceList[i]) mSourceList[i]->introDependency(c)]. *)
Definition introDependencies (s : Script) (c : CacheCodec) : CacheCodec :=
  let c := match source_at 0 s with
           | Some si => codec_introDependency si c
           | None => c
           end in
  match source_at 1 s with
  | Some si => codec_introDependency si c
  | None => c
  end.


(** ** Loading from the cache *)

Definition internalLoadCache (env : Env) (cacheDir cacheName : option string)
    (checkOnly : bool) (s : Script) (w : World) : Z * Script * World :=
  match cacheDir, cacheName with
  | Some dir, Some name =>
  (* Set cache file Name *)
  let s := set_mCacheName name s in
  (* Santize mCacheDir. Ensure that mCacheDir ends with '/'. *)
  let s := set_mCacheDir dir s in
  let s := if negb (string_empty (mCacheDir s))
              && negb (bool_decide (string_last (mCacheDir s) = Some slash))
           then set_mCacheDir (push_back slash (mCacheDir s)) s
           else s in
  if negb (isCacheable env s) then (1, s, w) else
  let objPath := getCachedObjectPath s in
  let infoPath := getCacheInfoPath s in
  let '(fd, w) := fh_open env objPath OpenMode.Read w in
  if fd <? 0 then (1, s, w) else
  let '(fd, w) := fh_open env infoPath OpenMode.Read w in
  if fd <? 0 then (1, s, w) else
  let reader := codec_new in
  (* Register symbol lookup function *)
  let reader := if negb (is_null (mpExtSymbolLookupFn s))
                then codec_registerSymbolCallback (mpExtSymbolLookupFn s)
                       (mpExtSymbolLookupFnContext s) reader
                else reader in
  (* Dependencies *)
  let reader := codec_addDependency BCC_FILE_RESOURCE pathLibBCC_SHA1
                  sha1LibBCC_SHA1 reader in
  let reader := codec_addDependency BCC_FILE_RESOURCE pathLibRS sha1LibRS
                  reader in
  let reader := introDependencies s reader in
  if checkOnly
  then
    let w := log CallCheckCacheFile (mStatus s) w in
    (if env_checkCacheFile env reader objPath infoPath then 0 else 1, s, w)
  else
  (* Read cache file *)
  let w := log CallReadCacheFile (mStatus s) w in
  match env_readCacheFile env reader objPath infoPath with
  | None =>
      (1, set_mIsContextSlotNotAvail (env_isContextSlotNotAvail env) s, w)
  | Some cached =>
  let s := set_mCached (Some cached) s in
  let s := set_mStatus ScriptStatus.Cached s in
  (* Dirty hack for libRS. *)
  let w := if negb (cached_isLibRSThreadable cached)
              && negb (is_null (mpExtSymbolLookupFn s))
           then log (CallSymbolLookup "__clearThreadable") (mStatus s) w
           else w in
  (0, s, w)
  end
  | _, _ => (1, s, w)
  end.

(** ** The compile pipeline *)

Definition internalCompile (env : Env) (option : CompilerOption RelocModel)
    (s : Script) (w : World) : Z * Script * World :=
  (* Create the ScriptCompiled object *)
  let w := log CallNewScriptCompiled (mStatus s) w in
  let s := set_mCompiled (env_newScriptCompiled env) s in
  match mCompiled s with
  | None => (1, set_mErrorCode BCC_OUT_OF_MEMORY s, w)
  | Some compiled =>
  let s := set_mStatus ScriptStatus.Compiled s in
  (* Register symbol lookup function *)
  let compiled := if negb (is_null (mpExtSymbolLookupFn s))
                  then sc_registerSymbolCallback compiled
                         (mpExtSymbolLookupFn s) (mpExtSymbolLookupFnContext s)
                  else compiled in
  let s := set_mCompiled (Some compiled) s in
  match source_at 0 s with
  | None => (1, s, w)
  | Some src0 =>
  (* Parse Source bitcode file (if necessary) *)
  let w := log (CallPrepareModule 0) (mStatus s) w in
  let '(r, src0) := si_prepareModule src0 None in
  let s := set_source 0 (Some src0) s in
  if negb (r =? 0) then (1, s, w) else
  (* Parse Library bitcode file (if necessary) *)
  let '(r, s, w) :=
    match source_at 1 s with
    | Some src1 =>
        let w := log (CallPrepareModule 1) (mStatus s) w in
        let '(r, src1) := si_prepareModule src1 (si_getContext src0) in
        (r, set_source 1 (Some src1) s, w)
    | None => (0, s, w)
    end in
  if negb (r =? 0) then (1, s, w) else
  (* Set the main source module *)
  let w := log CallReadModule (mStatus s) w in
  let '(r, compiled) := sc_readModule compiled (si_getModule src0) in
  let s := set_mCompiled (Some compiled) s in
  if negb (r =? 0) then (1, s, w) else
  (* Link the source module with the library module *)
  let '(r, compiled, w) :=
    match source_at 1 s with
    | Some src1 =>
        let w := log CallLinkModule (mStatus s) w in
        let '(r, compiled) := sc_linkModule compiled (si_getModule src1) in
        (r, compiled, w)
    | None => (0, compiled, w)
    end in
  let s := set_mCompiled (Some compiled) s in
  if negb (r =? 0) then (1, s, w) else
  (* Compile and JIT the code *)
  let w := log CallCompile (mStatus s) w in
  let '(r, compiled) := sc_compile compiled option in
  let s := set_mCompiled (Some compiled) s in
  if negb (r =? 0) then (1, s, w) else
  (0, s, w)
  end
  end.

(** ** Writing the cache *)

Definition writeCache (env : Env) (s : Script) (w : World) : Z * Script * World :=
  (* Not compiled script or encountered error during the compilation. *)
  if negb (ScriptStatus.eqb (mStatus s) ScriptStatus.Compiled) then (1, s, w) else
  let '(msg, s) := getCompilerErrorMessage s in
  match msg with
  | None => (1, s, w)
  | Some _ =>
  if isCacheable env s then
    let objPath := getCachedObjectPath s in
    let infoPath := getCacheInfoPath s in
    (* Remove the file if it already exists before writing the new file. *)
    let '(_, w) := unlink objPath w in
    let '(_, w) := unlink infoPath w in
    let '(fdObj, w) := fh_open env objPath OpenMode.Write w in
    let '(fdInfo, w) := if 0 <=? fdObj
                        then fh_open env infoPath OpenMode.Write w
                        else (-1, w) in
    if (0 <=? fdObj) && (0 <=? fdInfo) then
      let writer := codec_new in
      (* Dependencies *)
      let writer :=
        if TARGET_BUILD
        then codec_addDependency BCC_FILE_RESOURCE pathLibRS sha1LibRS
               (codec_addDependency BCC_FILE_RESOURCE pathLibBCC_SHA1
                  sha1LibBCC_SHA1 writer)
        else writer in
      let writer := introDependencies s writer in
      (* libRS is threadable dirty hack *)
      let '(libRS_threadable, w) :=
        if negb (is_null (mpExtSymbolLookupFn s))
        then ((env_symbolLookup env (mpExtSymbolLookupFn s)
                 (mpExtSymbolLookupFnContext s) "__isThreadable"
               mod 2 ^ 32)%N,
              log (CallSymbolLookup "__isThreadable") (mStatus s) w)
        else (0%N, w) in
      let w := log CallWriteCacheFile (mStatus s) w in
      let '(ok, objBytes, infoBytes) :=
        env_writeCacheFile env writer libRS_threadable in
      let w := set_files (<[infoPath := infoBytes]>
                            (<[objPath := objBytes]> (files w))) w in
      if negb ok then
        let w := fh_truncate objPath w in
        let '(_, w) := unlink objPath w in
        let w := fh_truncate infoPath w in
        let '(_, w) := unlink infoPath w in
        (0, s, w)
      else (0, s, w)
    else (0, s, w)
  else (0, s, w)
  end.

(** ** Finalization *)

Definition prepareRelocatable (env : Env) (objPath : string)
    (RelocModel_ : RelocModel) (flags : N) (s : Script) (w : World)
    : Z * Script * World :=
  let option := {| RelocModelOpt := RelocModel_; LoadAfterCompile := false |} in
  let '(status, s, w) := internalCompile env option s w in
  if negb (status =? 0) then
    (* the log line evaluates getCompilerErrorMessage() *)
    let '(_, s) := getCompilerErrorMessage s in
    (status, s, w)
  else
  let '(fd, w) := fh_open env objPath OpenMode.Write w in
  if fd <? 0 then (1, s, w) else
  let '(n, w) := fh_write env objPath (getELF s) (getELFSize s) w in
  if negb (to_size_t n =? Z.of_N (getELFSize s)) then
    let '(_, w) := unlink objPath w in
    (* return false; *)
    (0, s, w)
  else
  (0, set_mObjectType ScriptObject.Relocatable s, w).

Definition prepareSharedObject (objPath dsoPath : option string) (flags : N)
    (s : Script) : Z * Script :=
  (1, s).

(** Lines 245-250 of prepareExecutable: registration with the debugger and
    the object type. *)
Definition prepareExecutable_finish (status : Z) (s : Script) (w : World)
    : Z * Script * World :=
  let w := log (CallRegisterObjectWithGDB (getELF s) (getELFSize s))
             (mStatus s) w in
  (status, set_mObjectType ScriptObject.Executable s, w).

Definition prepareExecutable (env : Env) (cacheDir cacheName : option string)
    (flags : N) (s : Script) (w : World) : Z * Script * World :=
  if negb (ScriptStatus.eqb (mStatus s) ScriptStatus.Unknown)
  then (1, set_mErrorCode BCC_INVALID_OPERATION s, w)
  else
  let '(status, s, w) := internalLoadCache env cacheDir cacheName false s w in
  if negb (status =? 0) then
    let '(status, s, w) := internalCompile env CompilerOption_default s w in
    if negb (status =? 0) then
      (* the log line evaluates getCompilerErrorMessage() *)
      let '(_, s) := getCompilerErrorMessage s in
      (status, s, w)
    else
    let '(status, s, w) := writeCache env s w in
    if negb (status =? 0) then (status, s, w) else
    prepareExecutable_finish status s w
  else
  prepareExecutable_finish status s w.

(** ** Symbol resolver *)

Definition registerSymbolCallback (pFn pContext : ptr) (s : Script) : Z * Script :=
  let s := set_callback pFn pContext s in
  if negb (ScriptStatus.eqb (mStatus s) ScriptStatus.Unknown)
  then (1, set_mErrorCode BCC_INVALID_OPERATION s)
  else (0, s).


(** ** Symbol lookup and export metadata *)

Definition lookup (name : option string) (s : Script) : ptr * Script :=
  match mStatus s with
  | ScriptStatus.Compiled => (deref (mCompiled s) NULL (λ c, a_lookup c name), s)
  | ScriptStatus.Cached => (deref (mCached s) NULL (λ c, a_lookup c name), s)
  | _ => (NULL, set_mErrorCode BCC_INVALID_OPERATION s)
  end.

(** The count queries are [const] member functions: they read the Script and
    cannot assign [mErrorCode]. *)
Definition getExportVarCount (s : Script) : N :=
  match mStatus s with
  | ScriptStatus.Compiled => deref (mCompiled s) 0%N a_getExportVarCount
  | ScriptStatus.Cached => deref (mCached s) 0%N a_getExportVarCount
  | _ => 0%N
  end.

Definition getExportFuncCount (s : Script) : N :=
  match mStatus s with
  | ScriptStatus.Compiled => deref (mCompiled s) 0%N a_getExportFuncCount
  | ScriptStatus.Cached => deref (mCached s) 0%N a_getExportFuncCount
  | _ => 0%N
  end.

Definition getExportForEachCount (s : Script) : N :=
  match mStatus s with
  | ScriptStatus.Compiled => deref (mCompiled s) 0%N a_getExportForEachCount
  | ScriptStatus.Cached => deref (mCached s) 0%N a_getExportForEachCount
  | _ => 0%N
  end.

Definition getPragmaCount (s : Script) : N :=
  match mStatus s with
  | ScriptStatus.Compiled => deref (mCompiled s) 0%N a_getPragmaCount
  | ScriptStatus.Cached => deref (mCached s) 0%N a_getPragmaCount
  | _ => 0%N
  end.

Definition getFuncCount (s : Script) : N :=
  match mStatus s with
  | ScriptStatus.Compiled => deref (mCompiled s) 0%N a_getFuncCount
  | ScriptStatus.Cached => deref (mCached s) 0%N a_getFuncCount
  | _ => 0%N
  end.

Definition getObjectSlotCount (s : Script) : N :=
  match mStatus s with
  | ScriptStatus.Compiled => deref (mCompiled s) 0%N a_getObjectSlotCount
  | ScriptStatus.Cached => deref (mCached s) 0%N a_getObjectSlotCount
  | _ => 0%N
  end.

(** A [const] member function run as a call: its answer, and the Script,
    which it cannot change. *)
Definition after_const {R : Type} (q : Script → R) (s : Script) : R * Script :=
  (q s, s).

(** The list-fill queries: capacity, the caller's buffer; the buffer as the
    call leaves it, and the Script. *)
Definition getExportVarList (varListSize : N) (varList : list ptr) (s : Script)
    : list ptr * Script :=
  match mStatus s with
  | ScriptStatus.Cached =>
      (deref (mCached s) varList (λ c, a_getExportVarList c varListSize varList), s)
  | ScriptStatus.Compiled =>
      (deref (mCompiled s) varList (λ c, a_getExportVarList c varListSize varList), s)
  | _ => (varList, set_mErrorCode BCC_INVALID_OPERATION s)
  end.

Definition getExportVarNameList (varList : list string) (s : Script)
    : list string * Script :=
  match mStatus s with
  | ScriptStatus.Compiled =>
      (deref (mCompiled s) varList (λ c, sc_getExportVarNameList c varList), s)
  | _ => (varList, set_mErrorCode BCC_INVALID_OPERATION s)
  end.

Definition getExportFuncList (funcListSize : N) (funcList : list ptr) (s : Script)
    : list ptr * Script :=
  match mStatus s with
  | ScriptStatus.Cached =>
      (deref (mCached s) funcList (λ c, a_getExportFuncList c funcListSize funcList), s)
  | ScriptStatus.Compiled =>
      (deref (mCompiled s) funcList (λ c, a_getExportFuncList c funcListSize funcList), s)
  | _ => (funcList, set_mErrorCode BCC_INVALID_OPERATION s)
  end.

Definition getExportFuncNameList (funcList : list string) (s : Script)
    : list string * Script :=
  match mStatus s with
  | ScriptStatus.Compiled =>
      (deref (mCompiled s) funcList (λ c, sc_getExportFuncNameList c funcList), s)
  | _ => (funcList, set_mErrorCode BCC_INVALID_OPERATION s)
  end.

Definition getExportForEachList (funcListSize : N) (funcList : list ptr)
    (s : Script) : list ptr * Script :=
  match mStatus s with
  | ScriptStatus.Cached =>
      (deref (mCached s) funcList
         (λ c, a_getExportForEachList c funcListSize funcList), s)
  | ScriptStatus.Compiled =>
      (deref (mCompiled s) funcList
         (λ c, a_getExportForEachList c funcListSize funcList), s)
  | _ => (funcList, set_mErrorCode BCC_INVALID_OPERATION s)
  end.

Definition getExportForEachNameList (forEachList : list string) (s : Script)
    : list string * Script :=
  match mStatus s with
  | ScriptStatus.Compiled =>
      (deref (mCompiled s) forEachList
         (λ c, sc_getExportForEachNameList c forEachList), s)
  | _ => (forEachList, set_mErrorCode BCC_INVALID_OPERATION s)
  end.

Definition getPragmaList (pragmaListSize : N)
    (keyList valueList : list (option string)) (s : Script)
    : (list (option string) * list (option string)) * Script :=
  match mStatus s with
  | ScriptStatus.Cached =>
      (deref (mCached s) (keyList, valueList)
         (λ c, a_getPragmaList c pragmaListSize keyList valueList), s)
  | ScriptStatus.Compiled =>
      (deref (mCompiled s) (keyList, valueList)
         (λ c, a_getPragmaList c pragmaListSize keyList valueList), s)
  | _ => ((keyList, valueList), set_mErrorCode BCC_INVALID_OPERATION s)
  end.

Definition getFuncInfoList (funcInfoListSize : N) (funcInfoList : list FuncInfo)
    (s : Script) : list FuncInfo * Script :=
  match mStatus s with
  | ScriptStatus.Cached =>
      (deref (mCached s) funcInfoList
         (λ c, a_getFuncInfoList c funcInfoListSize funcInfoList), s)
  | ScriptStatus.Compiled =>
      (deref (mCompiled s) funcInfoList
         (λ c, a_getFuncInfoList c funcInfoListSize funcInfoList), s)
  | _ => (funcInfoList, set_mErrorCode BCC_INVALID_OPERATION s)
  end.

Definition getObjectSlotList (objectSlotListSize : N) (objectSlotList : list N)
    (s : Script) : list N * Script :=
  match mStatus s with
  | ScriptStatus.Cached =>
      (deref (mCached s) objectSlotList
         (λ c, a_getObjectSlotList c objectSlotListSize objectSlotList), s)
  | ScriptStatus.Compiled =>
      (deref (mCompiled s) objectSlotList
         (λ c, a_getObjectSlotList c objectSlotListSize objectSlotList), s)
  | _ => (objectSlotList, set_mErrorCode BCC_INVALID_OPERATION s)
  end.

(** ** Sequences of calls *)

(** One call on the Script's public surface, with its arguments. *)
Inductive Call :=
| DoAddSourceBC (idx : nat) (resName : option string) (bitcode : option bytes)
    (bitcodeSize flags : N)
| DoAddSourceModule (idx : nat) (module : option LLVMModule) (flags : N)
| DoAddSourceFile (idx : nat) (path : option string) (flags : N)
| DoPrepareRelocatable (objPath : string) (reloc : RelocModel) (flags : N)
| DoPrepareSharedObject (objPath dsoPath : option string) (flags : N)
| DoPrepareExecutable (cacheDir cacheName : option string) (flags : N)
| DoGetCompilerErrorMessage
| DoLookup (name : option string)
| DoGetExportVarList (size : N) (buf : list ptr)
| DoGetExportVarNameList (buf : list string)
| DoGetExportFuncList (size : N) (buf : list ptr)
| DoGetExportFuncNameList (buf : list string)
| DoGetExportForEachList (size : N) (buf : list ptr)
| DoGetExportForEachNameList (buf : list string)
| DoGetPragmaList (size : N) (keys values : list (option string))
| DoGetFuncInfoList (size : N) (buf : list FuncInfo)
| DoGetObjectSlotList (size : N) (buf : list N)
| DoRegisterSymbolCallback (pFn pContext : ptr).

(** The Script and the world after a call (what the call returns is dropped). *)
Definition run (env : Env) (c : Call) (s : Script) (w : World) : Script * World :=
  match c with
  | DoAddSourceBC idx resName bitcode size flags =>
      ((addSourceBC env idx resName bitcode size flags s).2, w)
  | DoAddSourceModule idx module flags =>
      ((addSourceModule env idx module flags s).2, w)
  | DoAddSourceFile idx path flags =>
      ((addSourceFile env idx path flags s w).2, w)
  | DoPrepareRelocatable objPath reloc flags =>
      let '(_, s, w) := prepareRelocatable env objPath reloc flags s w in (s, w)
  | DoPrepareSharedObject objPath dsoPath flags =>
      ((prepareSharedObject objPath dsoPath flags s).2, w)
  | DoPrepareExecutable cacheDir cacheName flags =>
      let '(_, s, w) := prepareExecutable env cacheDir cacheName flags s w in (s, w)
  | DoGetCompilerErrorMessage => ((getCompilerErrorMessage s).2, w)
  | DoLookup name => ((lookup name s).2, w)
  | DoGetExportVarList size buf => ((getExportVarList size buf s).2, w)
  | DoGetExportVarNameList buf => ((getExportVarNameList buf s).2, w)
  | DoGetExportFuncList size buf => ((getExportFuncList size buf s).2, w)
  | DoGetExportFuncNameList buf => ((getExportFuncNameList buf s).2, w)
  | DoGetExportForEachList size buf => ((getExportForEachList size buf s).2, w)
  | DoGetExportForEachNameList buf => ((getExportForEachNameList buf s).2, w)
  | DoGetPragmaList size keys values => ((getPragmaList size keys values s).2, w)
  | DoGetFuncInfoList size buf => ((getFuncInfoList size buf s).2, w)
  | DoGetObjectSlotList size buf => ((getObjectSlotList size buf s).2, w)
  | DoRegisterSymbolCallback pFn pContext =>
      ((registerSymbolCallback pFn pContext s).2, w)
  end.

(** States a host can drive a fresh Script into: each call meets its own
    environment. *)
Inductive reachable : Script → World → Prop :=
| reachable_new w : reachable Script_new w
| reachable_step env c s w s' w' :
    reachable s w → run env c s w = (s', w') → reachable s' w'.

(** The Script after a list of calls, each with its environment. *)
Fixpoint run_all (cs : list (Env * Call)) (s : Script) (w : World)
    : Script * World :=
  match cs with
  | [] => (s, w)
  | (env, c) :: cs => let '(s, w) := run env c s w in run_all cs s w
  end.

(** ** The status/artifact agreement *)

(** The state tag and the two artifact pointers, the part of a Script the
    agreement is about. *)
Definition artifacts (s : Script)
    : ScriptStatus.t * option ScriptCompiled * option ScriptCached :=
  (mStatus s, mCompiled s, mCached s).

(** At most one artifact pointer is non-null, and the one the status names
    is. *)
Definition artifact_agreement (s : Script) : Prop :=
  (mCompiled s = None ∨ mCached s = None) ∧
  (mStatus s = ScriptStatus.Compiled → is_Some (mCompiled s)) ∧
  (mStatus s = ScriptStatus.Cached → is_Some (mCached s)).

(** The same, and no artifact at all before finalization. *)
Definition artifact_agreement_strict (s : Script) : Prop :=
  match mStatus s with
  | ScriptStatus.Unknown => mCompiled s = None ∧ mCached s = None
  | ScriptStatus.Compiled => is_Some (mCompiled s) ∧ mCached s = None
  | ScriptStatus.Cached => mCompiled s = None ∧ is_Some (mCached s)
  end.

(** Whether the status of [s] names an artifact the Script does not point
    to.  On such a Script the source calls through a NULL pointer in every
    function that delegates to the active artifact (getCompilerErrorMessage
    in state Compiled, getELF, getELFSize, lookup and the export queries in
    both finalized states). *)
Definition null_artifact (s : Script) : bool :=
  match mStatus s with
  | ScriptStatus.Compiled =>
      match mCompiled s with Some _ => false | None => true end
  | ScriptStatus.Cached =>
      match mCached s with Some _ => false | None => true end
  | ScriptStatus.Unknown => false
  end.

(** A call that is not a prepareRelocatable on an already finalized Script. *)
Definition guarded (c : Call) (s : Script) : Prop :=
  match c with
  | DoPrepareRelocatable _ _ _ => mStatus s = ScriptStatus.Unknown
  | _ => True
  end.

(** The states a host reaches when it never asks a finalized Script for a
    relocatable object. *)
Inductive reachable_guarded : Script → World → Prop :=
| reachable_guarded_new w : reachable_guarded Script_new w
| reachable_guarded_step env c s w s' w' :
    reachable_guarded s w → guarded c s → run env c s w = (s', w') →
    reachable_guarded s' w'.

(** ** Kinds of collaborator calls *)

Inductive EventKind := PipelineCall | CodecCall | ResolverCall | DebuggerCall.

Definition event_kind (e : Event) : EventKind :=
  match e with
  | CallNewScriptCompiled | CallPrepareModule _ | CallReadModule
  | CallLinkModule | CallCompile => PipelineCall
  | CallCheckCacheFile | CallReadCacheFile | CallWriteCacheFile => CodecCall
  | CallSymbolLookup _ => ResolverCall
  | CallRegisterObjectWithGDB _ _ => DebuggerCall
  end.

(** Whether slot 1 holds a library source. *)
Definition has_library (s : Script) : bool :=
  match source_at 1 s with
  | Some _ => true
  | None => false
  end.

(** The calls of a complete run of the compile pipeline, in the order of
    the source, with or without a library source in slot 1. *)
Definition pipeline_steps (has_lib : bool) : list Event :=
  [CallNewScriptCompiled; CallPrepareModule 0]
  ++ (if has_lib then [CallPrepareModule 1] else [])
  ++ [CallReadModule]
  ++ (if has_lib then [CallLinkModule] else [])
  ++ [CallCompile].

(** What every step of the pipeline answers, in the order of the source,
    each step on the objects as the steps before it left them: the primary
    source is parsed with no context, the library with the context of the
    parsed primary; the module of the parsed primary is read into the new
    artifact (with the symbol resolver registered on it if the Script has
    one), the module of the parsed library is linked into what the read
    left, and what the link (or, with no library, the read) left is
    compiled.  The allocation counts as answering 1 when it yields NULL.
    With slot 0 empty the list ends after the allocation: the source returns
    there without calling a further collaborator. *)
Definition pipeline_results (env : Env) (option : CompilerOption RelocModel)
    (s : Script) : list (Event * Z) :=
  match env_newScriptCompiled env with
  | None => [(CallNewScriptCompiled, 1)]
  | Some compiled =>
  let compiled := if negb (is_null (mpExtSymbolLookupFn s))
                  then sc_registerSymbolCallback compiled
                         (mpExtSymbolLookupFn s) (mpExtSymbolLookupFnContext s)
                  else compiled in
  (CallNewScriptCompiled, 0) ::
  match source_at 0 s with
  | None => []
  | Some src0 =>
  let parsed := si_prepareModule src0 None in
  let read := sc_readModule compiled (si_getModule parsed.2) in
  (CallPrepareModule 0, parsed.1) ::
  match source_at 1 s with
  | Some src1 =>
      let parsedLib := si_prepareModule src1 (si_getContext parsed.2) in
      let linked := sc_linkModule read.2 (si_getModule parsedLib.2) in
      [(CallPrepareModule 1, parsedLib.1); (CallReadModule, read.1);
       (CallLinkModule, linked.1);
       (CallCompile, (sc_compile linked.2 option).1)]
  | None =>
      [(CallReadModule, read.1); (CallCompile, (sc_compile read.2 option).1)]
  end
  end
  end.

(** A run that stops at the first step answering non-zero: the steps up to
    and including that one, and none after it. *)
Fixpoint through_first_failure (steps : list (Event * Z))
    : list (Event * Z) :=
  match steps with
  | [] => []
  | step :: rest =>
      if negb (step.2 =? 0) then [step]
      else step :: through_first_failure rest
  end.

(** ** Destruction *)

(** What one [delete] gives back. *)
Inductive Freed :=
| FreedCompiled (c : ScriptCompiled)
| FreedCached (c : ScriptCached)
| FreedSource (si : SourceInfo).

(** [delete p]: nothing for a null pointer. *)
Definition cxx_delete {A : Type} (f : A → Freed) (p : option A) : list Freed :=
  match p with
  | Some a => [f a]
  | None => []
  end.

(** [Script::~Script]: the objects it deletes, in order. *)
Definition Script_destroy (s : Script) : list Freed :=
  match mStatus s with
  | ScriptStatus.Compiled => cxx_delete FreedCompiled (mCompiled s)
  | ScriptStatus.Cached => cxx_delete FreedCached (mCached s)
  | _ => []
  end
  ++ cxx_delete FreedSource (source_at 0 s)
  ++ cxx_delete FreedSource (source_at 1 s).

(** Every object a Script points to. *)
Definition held (s : Script) : list Freed :=
  cxx_delete FreedCompiled (mCompiled s)
  ++ cxx_delete FreedCached (mCached s)
  ++ cxx_delete FreedSource (source_at 0 s)
  ++ cxx_delete FreedSource (source_at 1 s).

(** The two calls that can finalize a Script. *)
Definition is_finalization (c : Call) : bool :=
  match c with
  | DoPrepareRelocatable _ _ _ | DoPrepareExecutable _ _ _ => true
  | _ => false
  end.

End Script.

(** ** A small concrete backend

    Used to run the Script on concrete inputs.  An artifact is its compiler
    message, its ELF image and its exported variable addresses and names; a
    source descriptor is one flag saying whether its bitcode parses. *)
Module Toy.

Record Artifact := {
  art_msg : option string;
  art_elf : bytes;
  art_vars : list ptr;
  art_names : list string
}.

Definition queries : ArtifactQueries Artifact unit :=
  {| a_lookup := λ _ _, NULL;
     a_getExportVarCount := λ a, N.of_nat (length (art_vars a));
     a_getExportFuncCount := λ _, 0%N;
     a_getExportForEachCount := λ _, 0%N;
     a_getPragmaCount := λ _, 0%N;
     a_getFuncCount := λ _, 0%N;
     a_getObjectSlotCount := λ _, 0%N;
     a_getExportVarList := λ a size buf,
       take (N.to_nat size) (art_vars a) ++ drop (length (art_vars a) `min` N.to_nat size) buf;
     a_getExportFuncList := λ _ _ buf, buf;
     a_getExportForEachList := λ _ _ buf, buf;
     a_getPragmaList := λ _ _ keys values, (keys, values);
     a_getFuncInfoList := λ _ _ buf, buf;
     a_getObjectSlotList := λ _ _ buf, buf;
     a_getELFSize := λ a, N.of_nat (length (art_elf a));
     a_getELF := λ a, Some (art_elf a) |}.

Definition backend : Backend :=
  {| SourceInfo := bool;
     ScriptCompiled := Artifact;
     ScriptCached := Artifact;
     LLVMModule := unit;
     LLVMContext := unit;
     FuncInfo := unit;
     RelocModel := unit;
     default_RelocModelOpt := tt;
     default_LoadAfterCompile := true;
     TARGET_BUILD := true;
     BCC_FILE_RESOURCE := 1%N;
     pathLibBCC_SHA1 := Some "/system/lib/libbcc.so.sha1";
     sha1LibBCC_SHA1 := [];
     pathLibRS := Some "/system/lib/libRS.so";
     sha1LibRS := [];
     cachedObjectPath := λ dir name, dir +:+ name +:+ ".o";
     cacheInfoPath := λ dir name, dir +:+ name +:+ ".o.info";
     si_prepareModule := λ parses _, (if parses : bool then 0 else 1, parses);
     si_getContext := λ _, Some tt;
     si_getModule := λ _, Some tt;
     si_introDependency := λ _ deps, deps;
     sc_registerSymbolCallback := λ c _ _, c;
     sc_readModule := λ c _, (0, c);
     sc_linkModule := λ c _, (0, c);
     sc_compile := λ c _, (0, c);
     sc_getCompilerErrorMessage := art_msg;
     sc_getExportVarNameList := λ c _, art_names c;
     sc_getExportFuncNameList := λ _ buf, buf;
     sc_getExportForEachNameList := λ _ buf, buf;
     sc_queries := queries;
     cached_isLibRSThreadable := λ _, true;
     cached_queries := queries |}.

(** An environment in which every descriptor is built and parses as [parses]
    says, the ScriptCompiled allocation yields [alloc], every file opens iff
    [opens], one write writes [written] bytes, and the cache reader answers
    [cache]. *)
Definition env (parses : bool) (alloc : option Artifact) (opens : bool)
    (written : Z) (cache : option Artifact) : @Env backend :=
  @Build_Env backend
    (* env_createFromBuffer *) (λ _ _ _ _, Some parses)
    (* env_createFromModule *) (λ _ _, Some parses)
    (* env_createFromFile *) (λ _ _, Some parses)
    (* env_newScriptCompiled *) alloc
    (* env_property_get *) (λ _ dflt, dflt)
    (* env_open_ok *) (λ _ _, opens)
    (* env_write *) (λ _ _, written)
    (* env_checkCacheFile *) (λ _ _ _, bool_decide (is_Some cache))
    (* env_readCacheFile *) (λ _ _ _, cache)
    (* env_isContextSlotNotAvail *) false
    (* env_writeCacheFile *) (λ _ _, (true, [], []))
    (* env_symbolLookup *) (λ _ _ _, NULL).

Definition elf4 : bytes := [x7f; x45; x4c; x46].

(** A freshly compiled artifact that reports an (empty) message string. *)
Definition fresh : Artifact :=
  {| art_msg := Some ""; art_elf := elf4; art_vars := [16%N; 32%N];
     art_names := ["a"; "b"] |}.


(** What the cache reader reconstructs. *)
Definition from_cache : Artifact :=
  {| art_msg := None; art_elf := elf4; art_vars := [16%N; 32%N];
     art_names := [] |}.

(** Everything goes well and the cache reader finds nothing to load. *)
Definition miss_env : @Env backend := env true (Some fresh) true 4 None.

(** Everything goes well and the cache reader accepts the cache files. *)
Definition hit_env : @Env backend :=
  env true (Some fresh) true 4 (Some from_cache).


(** As [miss_env], but a write of the four ELF bytes writes two. *)
Definition short_write_env : @Env backend := env true (Some fresh) true 2 None.

(** As [miss_env], but no file can be opened. *)
Definition no_open_env : @Env backend := env true (Some fresh) false 4 None.

(** As [miss_env], but the ScriptCompiled allocation fails. *)
Definition no_alloc_env : @Env backend := env true None true 4 None.

(** As [miss_env], but source descriptors get bitcode that does not parse. *)
Definition no_parse_env : @Env backend := env false (Some fresh) true 4 None.

Definition empty_world : World := {| files := ∅; trace := [] |}.

(** A disk that holds the two cache files of ("/tmp/c/", "s1"). *)
Definition cached_world : World :=
  {| files := {[ "/tmp/c/s1.o" := elf4; "/tmp/c/s1.o.info" := [] ]};
     trace := [] |}.

(** A fresh Script with one primary source added from a buffer. *)
Definition with_source : @Script backend :=
  (addSourceBC miss_env 0 (Some "main.bc") (Some []) 0 0 Script_new).2.

(** A fresh Script whose primary source does not parse. *)
Definition with_bad_source : @Script backend :=
  (addSourceBC no_parse_env 0 (Some "main.bc") (Some []) 0 0 Script_new).2.

(** That Script after a prepareExecutable that hit the cache. *)
Definition cached_script : @Script backend :=
  (prepareExecutable hit_env (Some "/tmp/c") (Some "s1") 0
     with_source cached_world).1.2.

(** That Script after a prepareExecutable that missed the cache and compiled. *)
Definition compiled_script : @Script backend :=
  (prepareExecutable miss_env (Some "/tmp/c") (Some "s1") 0
     with_source empty_world).1.2.

(** The cache load of [with_source] on an empty disk, and the compile that
    follows it. *)
Definition load_miss : Z * @Script backend * World :=
  internalLoadCache miss_env (Some "/tmp/c") (Some "s1") false
    with_source empty_world.

Definition compile_after_miss : Z * @Script backend * World :=
  internalCompile miss_env CompilerOption_default load_miss.1.2 load_miss.2.

(** Add a source, hit the cache, then ask for a relocatable object. *)
Definition relocatable_after_cache_hit : list (@Env backend * @Call backend) :=
  [ (miss_env, @DoAddSourceBC backend 0 (Some "main.bc") (Some []) 0 0);
    (hit_env, @DoPrepareExecutable backend (Some "/tmp/c") (Some "s1") 0);
    (miss_env, @DoPrepareRelocatable backend "/tmp/out.o" tt 0) ].

(** Add a source, produce a relocatable object, then ask again while the
    allocator is out of memory. *)
Definition relocatable_twice : list (@Env backend * @Call backend) :=
  [ (miss_env, @DoAddSourceBC backend 0 (Some "main.bc") (Some []) 0 0);
    (miss_env, @DoPrepareRelocatable backend "/tmp/out.o" tt 0);
    (no_alloc_env, @DoPrepareRelocatable backend "/tmp/out.o" tt 0) ].

(** Where those two call sequences leave a fresh Script. *)
Definition two_artifacts_state : @Script backend * World :=
  run_all relocatable_after_cache_hit Script_new cached_world.

Definition lost_artifact_state : @Script backend * World :=
  run_all relocatable_twice Script_new empty_world.

(** The option prepareRelocatable builds for the toy relocation model. *)
Definition reloc_option : CompilerOption (@RelocModel backend) :=
  {| RelocModelOpt := tt; LoadAfterCompile := false |}.


(** Add a source, then prepareExecutable with a cache hit. *)
Definition finalize_from_cache : list (@Env backend * @Call backend) :=
  [ (miss_env, @DoAddSourceBC backend 0 (Some "main.bc") (Some []) 0 0);
    (hit_env, @DoPrepareExecutable backend (Some "/tmp/c") (Some "s1") 0) ].

Definition cached_state : @Script backend * World :=
  run_all finalize_from_cache Script_new cached_world.

End Toy.

(** * Properties *)

Lemma ScriptStatus_eqb_eq a b : ScriptStatus.eqb a b = true ↔ a = b.
Proof. destruct a, b; simpl; split; intros H; congruence. Qed.

Example toy_cached_status : mStatus Toy.cached_script = ScriptStatus.Cached.
Proof. vm_compute. reflexivity. Qed.

Example toy_cached_dir : mCacheDir Toy.cached_script = "/tmp/c/".
Proof. vm_compute. reflexivity. Qed.

Example toy_compiled_status : mStatus Toy.compiled_script = ScriptStatus.Compiled.
Proof. vm_compute. reflexivity. Qed.

Section ScriptProperties.
Context `{B : Backend}.

Implicit Types (s : Script) (w : World) (env : Env).

Lemma not_Unknown_guard s :
  mStatus s ≠ ScriptStatus.Unknown →
  negb (ScriptStatus.eqb (mStatus s) ScriptStatus.Unknown) = true.
Proof. destruct (mStatus s); simpl; congruence. Qed.

(** ** Adding a source after finalization *)

(** C4 (as amended).  On a Script whose status is not Unknown every addSource
    operation, for all argument values, returns 1 and leaves both source
    slots (and the status) unchanged.  The error code it stores is
    [BCC_INVALID_OPERATION], except for [addSourceBC] called with a null
    [resName]: that argument is checked before the status, and the code
    stored is [BCC_INVALID_VALUE]. *)
Theorem addSource_after_finalization env idx resName bitcode bitcodeSize
    module path flags s w :
  mStatus s ≠ ScriptStatus.Unknown →
  let bc := addSourceBC env idx resName bitcode bitcodeSize flags s in
  let md := addSourceModule env idx module flags s in
  let fl := addSourceFile env idx path flags s w in
  (bc.1 = 1 ∧ mSourceList bc.2 = mSourceList s ∧ mStatus bc.2 = mStatus s ∧
   mErrorCode bc.2 = match resName with
                     | Some _ => BCC_INVALID_OPERATION
                     | None => BCC_INVALID_VALUE
                     end) ∧
  (md.1 = 1 ∧ mSourceList md.2 = mSourceList s ∧ mStatus md.2 = mStatus s ∧
   mErrorCode md.2 = BCC_INVALID_OPERATION) ∧
  (fl.1 = 1 ∧ mSourceList fl.2 = mSourceList s ∧ mStatus fl.2 = mStatus s ∧
   mErrorCode fl.2 = BCC_INVALID_OPERATION).
Proof.
  intros Hst. apply not_Unknown_guard in Hst.
  unfold addSourceBC, addSourceModule, addSourceFile.
  rewrite Hst. destruct resName; simpl; auto 10.
Qed.

(** ** Registering the symbol resolver *)

(** C7.  [registerSymbolCallback pFn pContext], in any state, stores [pFn]
    and [pContext]; it returns failure with [BCC_INVALID_OPERATION] exactly
    when the status is not Unknown, and returns 0 otherwise.  The status is
    never changed by it. *)
Theorem registerSymbolCallback_stores_then_reports pFn pContext s :
  let r := registerSymbolCallback pFn pContext s in
  mpExtSymbolLookupFn r.2 = pFn ∧
  mpExtSymbolLookupFnContext r.2 = pContext ∧
  mStatus r.2 = mStatus s ∧
  ((r.1 ≠ 0 ∧ mErrorCode r.2 = BCC_INVALID_OPERATION)
     ↔ mStatus s ≠ ScriptStatus.Unknown) ∧
  (mStatus s = ScriptStatus.Unknown → r.1 = 0 ∧ mErrorCode r.2 = mErrorCode s) ∧
  (mStatus s ≠ ScriptStatus.Unknown → r.1 = 1).
Proof.
  unfold registerSymbolCallback; simpl.
  destruct (mStatus s) eqn:E; simpl; repeat split; try congruence; try tauto.
  all: intros [? _]; congruence.
Qed.

(** ** Queries before finalization *)

(** C5 (as amended).  On a Script whose status is Unknown, each count query
    returns zero and, being [const], leaves the Script (the error code
    included) as it was; each list-fill query, the name-list ones included,
    hands the buffer back unchanged and sets [BCC_INVALID_OPERATION]. *)
Theorem queries_before_finalization s
    size (ptrs : list ptr) (names : list string)
    (keys values : list (option string)) (infos : list FuncInfo)
    (slots : list N) :
  mStatus s = ScriptStatus.Unknown →
  let failed := set_mErrorCode BCC_INVALID_OPERATION s in
  (after_const getExportVarCount s = (0%N, s) ∧
   after_const getExportFuncCount s = (0%N, s) ∧
   after_const getExportForEachCount s = (0%N, s) ∧
   after_const getPragmaCount s = (0%N, s) ∧
   after_const getFuncCount s = (0%N, s) ∧
   after_const getObjectSlotCount s = (0%N, s)) ∧
  (getExportVarList size ptrs s = (ptrs, failed) ∧
   getExportFuncList size ptrs s = (ptrs, failed) ∧
   getExportForEachList size ptrs s = (ptrs, failed) ∧
   getPragmaList size keys values s = ((keys, values), failed) ∧
   getFuncInfoList size infos s = (infos, failed) ∧
   getObjectSlotList size slots s = (slots, failed) ∧
   getExportVarNameList names s = (names, failed) ∧
   getExportFuncNameList names s = (names, failed) ∧
   getExportForEachNameList names s = (names, failed)) ∧
  mErrorCode failed = BCC_INVALID_OPERATION.
Proof.
  intros Hst.
  unfold after_const, getExportVarCount, getExportFuncCount,
    getExportForEachCount, getPragmaCount, getFuncCount, getObjectSlotCount,
    getExportVarList, getExportFuncList, getExportForEachList, getPragmaList,
    getFuncInfoList, getObjectSlotList, getExportVarNameList,
    getExportFuncNameList, getExportForEachNameList.
  rewrite Hst. simpl. repeat split.
Qed.

(** ** Queries after finalization *)

(** C6 (as amended).  On a finalized Script the count queries, the list-fill
    queries and [lookup] answer with the active artifact's own method, in the
    Compiled state and in the Cached state alike, and leave the Script
    untouched.  The three name-list queries do so in the Compiled state
    only: in the Cached state they hand the list back unchanged and set
    [BCC_INVALID_OPERATION]. *)
Theorem queries_after_finalization s
    size name (ptrs : list ptr) (names : list string)
    (keys values : list (option string)) (infos : list FuncInfo)
    (slots : list N) :
  (∀ c : ScriptCompiled,
     mStatus s = ScriptStatus.Compiled → mCompiled s = Some c →
     getExportVarCount s = a_getExportVarCount c ∧
     getExportFuncCount s = a_getExportFuncCount c ∧
     getExportForEachCount s = a_getExportForEachCount c ∧
     getPragmaCount s = a_getPragmaCount c ∧
     getFuncCount s = a_getFuncCount c ∧
     getObjectSlotCount s = a_getObjectSlotCount c ∧
     lookup name s = (a_lookup c name, s) ∧
     getExportVarList size ptrs s = (a_getExportVarList c size ptrs, s) ∧
     getExportFuncList size ptrs s = (a_getExportFuncList c size ptrs, s) ∧
     getExportForEachList size ptrs s = (a_getExportForEachList c size ptrs, s) ∧
     getPragmaList size keys values s = (a_getPragmaList c size keys values, s) ∧
     getFuncInfoList size infos s = (a_getFuncInfoList c size infos, s) ∧
     getObjectSlotList size slots s = (a_getObjectSlotList c size slots, s) ∧
     getExportVarNameList names s = (sc_getExportVarNameList c names, s) ∧
     getExportFuncNameList names s = (sc_getExportFuncNameList c names, s) ∧
     getExportForEachNameList names s = (sc_getExportForEachNameList c names, s)) ∧
  (∀ c : ScriptCached,
     mStatus s = ScriptStatus.Cached → mCached s = Some c →
     let failed := set_mErrorCode BCC_INVALID_OPERATION s in
     getExportVarCount s = a_getExportVarCount c ∧
     getExportFuncCount s = a_getExportFuncCount c ∧
     getExportForEachCount s = a_getExportForEachCount c ∧
     getPragmaCount s = a_getPragmaCount c ∧
     getFuncCount s = a_getFuncCount c ∧
     getObjectSlotCount s = a_getObjectSlotCount c ∧
     lookup name s = (a_lookup c name, s) ∧
     getExportVarList size ptrs s = (a_getExportVarList c size ptrs, s) ∧
     getExportFuncList size ptrs s = (a_getExportFuncList c size ptrs, s) ∧
     getExportForEachList size ptrs s = (a_getExportForEachList c size ptrs, s) ∧
     getPragmaList size keys values s = (a_getPragmaList c size keys values, s) ∧
     getFuncInfoList size infos s = (a_getFuncInfoList c size infos, s) ∧
     getObjectSlotList size slots s = (a_getObjectSlotList c size slots, s) ∧
     getExportVarNameList names s = (names, failed) ∧
     getExportFuncNameList names s = (names, failed) ∧
     getExportForEachNameList names s = (names, failed)).
Proof.
  split; intros c Hst Hc;
    unfold getExportVarCount, getExportFuncCount,
      getExportForEachCount, getPragmaCount, getFuncCount, getObjectSlotCount,
      lookup, getExportVarList, getExportFuncList, getExportForEachList,
      getPragmaList, getFuncInfoList, getObjectSlotList, getExportVarNameList,
      getExportFuncNameList, getExportForEachNameList;
    rewrite Hst, Hc; simpl; repeat split.
Qed.


(** ** The compile pipeline *)

(** When the allocation fails nothing but the artifact pointer and the error
    code is touched. *)
Lemma internalCompile_alloc_fails env option s w :
  env_newScriptCompiled env = None →
  internalCompile env option s w =
    (1, set_mErrorCode BCC_OUT_OF_MEMORY (set_mCompiled None s),
     log CallNewScriptCompiled (mStatus s) w).
Proof. intros H. unfold internalCompile. simpl. rewrite H. reflexivity. Qed.

(** What every run of the pipeline past the allocation has in common. *)
Lemma internalCompile_alloc_ok env option s w c :
  env_newScriptCompiled env = Some c →
  ∃ r s' w' rest,
    internalCompile env option s w = (r, s', w') ∧
    (r = 0 ∨ r = 1) ∧
    mStatus s' = ScriptStatus.Compiled ∧
    is_Some (mCompiled s') ∧
    mCached s' = mCached s ∧
    mErrorCode s' = mErrorCode s ∧
    mObjectType s' = mObjectType s ∧
    mCacheDir s' = mCacheDir s ∧
    mCacheName s' = mCacheName s ∧
    mpExtSymbolLookupFn s' = mpExtSymbolLookupFn s ∧
    mpExtSymbolLookupFnContext s' = mpExtSymbolLookupFnContext s ∧
    files w' = files w ∧
    trace w' = trace w ++ (CallNewScriptCompiled, mStatus s) :: rest ∧
    Forall (λ p, p.2 = ScriptStatus.Compiled) rest.
Proof.
  intros H. unfold internalCompile. simpl. rewrite H. simpl.
  repeat case_match; simplify_eq; simpl;
    do 3 eexists; eexists;
    (split; [reflexivity |]);
    simpl; rewrite <- ?app_assoc; simpl;
    split_and!; try done; eauto; repeat constructor.
Qed.


Lemma internalCompile_success env option s w s' w' :
  internalCompile env option s w = (0, s', w') →
  mStatus s' = ScriptStatus.Compiled ∧ is_Some (mCompiled s') ∧
  mCached s' = mCached s ∧ mErrorCode s' = mErrorCode s ∧
  mObjectType s' = mObjectType s ∧ mCacheDir s' = mCacheDir s ∧
  mCacheName s' = mCacheName s.
Proof.
  intros H. destruct (env_newScriptCompiled env) as [c|] eqn:E.
  - destruct (internalCompile_alloc_ok env option s w c E)
      as (r & s2 & w2 & rest & Heq & ? & ? & ? & ? & ? & ? & ? & ? & _).
    rewrite H in Heq. simplify_eq. done.
  - rewrite (internalCompile_alloc_fails _ _ _ _ E) in H. discriminate.
Qed.

(** [getCompilerErrorMessage] touches nothing but the error code, and not
    even that in the Compiled state. *)
Lemma getCompilerErrorMessage_frame s :
  let s' := (getCompilerErrorMessage s).2 in
  mStatus s' = mStatus s ∧ mCompiled s' = mCompiled s ∧
  mCached s' = mCached s ∧ mSourceList s' = mSourceList s ∧
  mCacheDir s' = mCacheDir s ∧ mCacheName s' = mCacheName s ∧
  mObjectType s' = mObjectType s ∧
  (mStatus s = ScriptStatus.Compiled → s' = s).
Proof.
  unfold getCompilerErrorMessage.
  destruct (mStatus s) eqn:E; simpl; split_and!; try done; congruence.
Qed.

(** ** Writing the cache *)

(** [writeCache] never changes the Script, and what it returns is decided
    before any file is touched: 0 exactly when the Script is Compiled and its
    artifact's message pointer is not NULL.  Whether the cache files open and
    whether the codec manages to encode them has no influence. *)
Lemma writeCache_result env s w :
  ∃ r w', writeCache env s w = (r, s, w') ∧
    (r = 0 ∨ r = 1) ∧
    (r = 0 ↔ mStatus s = ScriptStatus.Compiled ∧
             is_Some (deref (mCompiled s) None sc_getCompilerErrorMessage)).
Proof.
  unfold writeCache, getCompilerErrorMessage.
  destruct (ScriptStatus.eqb (mStatus s) ScriptStatus.Compiled) eqn:E; simpl.
  - apply ScriptStatus_eqb_eq in E.
    destruct (deref (mCompiled s) None sc_getCompilerErrorMessage) eqn:M.
    + repeat case_match; simplify_eq; do 2 eexists;
        (split; [reflexivity |]); split; auto; split; eauto.
    + do 2 eexists. split; [reflexivity |]. split; [auto |].
      split; [discriminate |]. intros [_ [? ?]]. discriminate.
  - do 2 eexists. split; [reflexivity |]. split; [auto |].
    split; [discriminate |]. intros [Hc _].
    rewrite Hc in E. discriminate.
Qed.

(** ** Loading from the cache *)

Lemma internalLoadCache_result env cacheDir cacheName s w :
  ∃ r s' w', internalLoadCache env cacheDir cacheName false s w = (r, s', w') ∧
    (r = 0 ∨ r = 1) ∧
    mCompiled s' = mCompiled s ∧
    mErrorCode s' = mErrorCode s ∧
    mObjectType s' = mObjectType s ∧
    mSourceList s' = mSourceList s ∧
    mpExtSymbolLookupFn s' = mpExtSymbolLookupFn s ∧
    mpExtSymbolLookupFnContext s' = mpExtSymbolLookupFnContext s ∧
    files w' = files w ∧
    (r = 0 → mStatus s' = ScriptStatus.Cached ∧ is_Some (mCached s')) ∧
    (r ≠ 0 → mStatus s' = mStatus s ∧ mCached s' = mCached s) ∧
    mCacheDir s' = match cacheDir, cacheName with
                   | Some dir, Some _ => sanitized dir
                   | _, _ => mCacheDir s
                   end.
Proof.
  unfold internalLoadCache, sanitized, ends_with_slash, fh_open.
  destruct cacheDir as [dir|], cacheName as [name|]; simpl;
    repeat case_match; simplify_eq; simpl;
    do 3 eexists; (split; [reflexivity |]);
    split_and!; simpl; try done; eauto; try (intros; congruence).
Qed.


(** ** prepareExecutable *)

Lemma prepareExecutable_guard env cacheDir cacheName flags s w :
  mStatus s ≠ ScriptStatus.Unknown →
  prepareExecutable env cacheDir cacheName flags s w =
    (1, set_mErrorCode BCC_INVALID_OPERATION s, w).
Proof.
  intros H. unfold prepareExecutable.
  rewrite (not_Unknown_guard _ H). reflexivity.
Qed.

Lemma Unknown_guard s :
  mStatus s = ScriptStatus.Unknown →
  negb (ScriptStatus.eqb (mStatus s) ScriptStatus.Unknown) = false.
Proof. intros ->. reflexivity. Qed.

(** What prepareExecutable does past a cache miss and a successful
    pipeline.  The compiled artifact stays the active one (status Compiled,
    [mCompiled] as the pipeline left it) whatever the write step does.
    Failing to open or to encode the cache files never fails the call; but
    [writeCache] itself returns 1 when the artifact's compiler message is
    NULL, and prepareExecutable propagates that: it returns 0 (and sets the
    object type to Executable) exactly when the message is not NULL, and 1
    otherwise. *)
Lemma prepareExecutable_after_compile env cacheDir cacheName flags
    s w r1 s1 w1 s2 w2 :
  mStatus s = ScriptStatus.Unknown →
  internalLoadCache env cacheDir cacheName false s w = (r1, s1, w1) →
  r1 ≠ 0 →
  internalCompile env CompilerOption_default s1 w1 = (0, s2, w2) →
  ∃ r s' w',
    prepareExecutable env cacheDir cacheName flags s w = (r, s', w') ∧
    mStatus s' = ScriptStatus.Compiled ∧
    mCompiled s' = mCompiled s2 ∧
    is_Some (mCompiled s') ∧
    match deref (mCompiled s2) None sc_getCompilerErrorMessage with
    | Some _ => r = 0 ∧ mObjectType s' = ScriptObject.Executable
    | None => r = 1 ∧ s' = s2
    end.
Proof.
  intros Hst Hload Hmiss Hcomp.
  destruct (internalCompile_success _ _ _ _ _ _ Hcomp) as (Hc & Hsome & _).
  destruct (writeCache_result env s2 w2) as (r & w3 & Hw & Hr & Hiff).
  unfold prepareExecutable.
  rewrite (Unknown_guard _ Hst), Hload.
  assert (negb (r1 =? 0) = true) as -> by (apply negb_true_iff; lia).
  rewrite Hcomp. simpl. rewrite Hw.
  destruct (deref (mCompiled s2) None sc_getCompilerErrorMessage) eqn:M.
  - assert (r = 0) as -> by (apply Hiff; eauto). simpl.
    unfold prepareExecutable_finish. do 3 eexists.
    split; [reflexivity |]. simpl. auto.
  - assert (r = 1) as ->.
    { destruct Hr as [-> | ->]; [| done].
      destruct Hiff as [Hiff _]. destruct (Hiff eq_refl) as [_ [? ?]].
      discriminate. }
    simpl. do 3 eexists. split; [reflexivity |]. auto.
Qed.

Lemma string_last_push_back c (d : string) :
  string_last (push_back c d) = Some c.
Proof.
  unfold push_back. induction d as [|a d IH]; simpl; [done |].
  rewrite IH. destruct d; reflexivity.
Qed.

Lemma sanitized_ends_with_slash (dir : string) :
  dir ≠ "" → ends_with_slash (sanitized dir) = true.
Proof.
  intros Hne. unfold sanitized.
  destruct (string_empty dir) eqn:E.
  { destruct dir; [done | discriminate]. }
  destruct (ends_with_slash dir) eqn:E2; simpl; [done |].
  unfold ends_with_slash. rewrite string_last_push_back.
  by apply bool_decide_eq_true.
Qed.

(** After the guard, [mCacheDir] is what [internalLoadCache] made of it: the
    compile pipeline, the cache writer and the tail of the function leave it
    alone. *)
Lemma prepareExecutable_cacheDir_from_load env cacheDir cacheName flags s w :
  mStatus s = ScriptStatus.Unknown →
  mCacheDir (prepareExecutable env cacheDir cacheName flags s w).1.2 =
  mCacheDir (internalLoadCache env cacheDir cacheName false s w).1.2.
Proof.
  intros Hst. unfold prepareExecutable. rewrite (Unknown_guard _ Hst).
  destruct (internalLoadCache env cacheDir cacheName false s w)
    as [[r1 s1] w1]; simpl.
  destruct (negb (r1 =? 0)); [| reflexivity].
  destruct (env_newScriptCompiled env) as [c|] eqn:E.
  - destruct (internalCompile_alloc_ok env CompilerOption_default s1 w1 c E)
      as (r & s2 & w2 & rest & -> & _ & _ & _ & _ & _ & _ & Hdir & _).
    destruct (writeCache_result env s2 w2) as (r' & w3 & Hw & _).
    destruct (getCompilerErrorMessage_frame s2) as (_ & _ & _ & _ & Hd & _).
    destruct (negb (r =? 0)).
    + destruct (getCompilerErrorMessage s2); simpl in *. congruence.
    + rewrite Hw. destruct (negb (r' =? 0)); simpl; congruence.
  - rewrite (internalCompile_alloc_fails _ _ _ _ E). simpl.
    destruct (getCompilerErrorMessage_frame
                (set_mErrorCode BCC_OUT_OF_MEMORY (set_mCompiled None s1)))
      as (_ & _ & _ & _ & Hd & _).
    destruct (getCompilerErrorMessage _); simpl in *. congruence.
Qed.

(** C9 (as amended).  A prepareExecutable call with a non-null [cacheDir]
    made on a Script in state Unknown and with a non-null [cacheName] stores
    the directory with a '/' appended unless it is empty or ends in '/'
    already: the stored string ends with '/' for every non-empty input, and
    is the empty string for the empty input.  When the status is not Unknown
    or [cacheName] is null the stored directory is not touched. *)
Theorem prepareExecutable_cacheDir env dir cacheName flags s w :
  let s' := (prepareExecutable env (Some dir) cacheName flags s w).1.2 in
  (mStatus s = ScriptStatus.Unknown → is_Some cacheName →
     mCacheDir s' = sanitized dir ∧
     (dir ≠ "" → ends_with_slash (mCacheDir s') = true) ∧
     (dir = "" → mCacheDir s' = "")) ∧
  (mStatus s ≠ ScriptStatus.Unknown ∨ cacheName = None →
     mCacheDir s' = mCacheDir s).
Proof.
  simpl. split.
  - intros Hst [name ->].
    rewrite (prepareExecutable_cacheDir_from_load _ _ _ _ _ _ Hst).
    destruct (internalLoadCache_result env (Some dir) (Some name) s w)
      as (r & s1 & w1 & -> & Hrest).
    simpl. assert (mCacheDir s1 = sanitized dir) as -> by apply Hrest.
    split_and!; [done | apply sanitized_ends_with_slash | by intros ->].
  - intros H. destruct (decide (mStatus s = ScriptStatus.Unknown)) as [Hst|Hst].
    + destruct H as [? | ->]; [done |].
      rewrite (prepareExecutable_cacheDir_from_load _ _ _ _ _ _ Hst).
      destruct (internalLoadCache_result env (Some dir) None s w)
        as (r & s1 & w1 & -> & Hrest). simpl. apply Hrest.
    + by rewrite (prepareExecutable_guard _ _ _ _ _ _ Hst).
Qed.


(** ** Status transitions *)




(** The calls other than the two finalizations leave the status and both
    artifact pointers alone. *)
Lemma run_artifacts env c s w :
  match c with
  | DoPrepareRelocatable _ _ _ | DoPrepareExecutable _ _ _ => True
  | _ => artifacts (run env c s w).1 = artifacts s
  end.
Proof.
  destruct c; simpl; try done;
    unfold addSourceBC, addSourceModule, addSourceFile,
      getCompilerErrorMessage, lookup, getExportVarList, getExportFuncList,
      getExportForEachList, getPragmaList, getFuncInfoList, getObjectSlotList,
      getExportVarNameList, getExportFuncNameList, getExportForEachNameList,
      registerSymbolCallback;
    repeat case_match; simplify_eq; reflexivity.
Qed.

(** prepareRelocatable has no status guard: it runs the pipeline in any
    state.  Past a successful allocation the Script is Compiled and keeps
    whatever cached artifact it had. *)
Lemma prepareRelocatable_alloc_ok env objPath reloc flags s w c :
  env_newScriptCompiled env = Some c →
  let s' := (prepareRelocatable env objPath reloc flags s w).1.2 in
  mStatus s' = ScriptStatus.Compiled ∧ is_Some (mCompiled s') ∧
  mCached s' = mCached s.
Proof.
  intros E. unfold prepareRelocatable.
  destruct (internalCompile_alloc_ok env
              {| RelocModelOpt := reloc; LoadAfterCompile := false |} s w c E)
    as (r & s2 & w2 & rest & -> & _ & Hst & Hc & Hcached & _).
  destruct (getCompilerErrorMessage_frame s2) as (_ & _ & _ & _ & _ & _ & _ & Hid).
  specialize (Hid Hst).
  destruct (getCompilerErrorMessage s2) as [m s3]; simpl in Hid; subst s3.
  repeat case_match; simplify_eq; simpl; done.
Qed.

Lemma prepareRelocatable_alloc_fails env objPath reloc flags s w :
  env_newScriptCompiled env = None →
  let s' := (prepareRelocatable env objPath reloc flags s w).1.2 in
  mStatus s' = mStatus s ∧ mCompiled s' = None ∧ mCached s' = mCached s.
Proof.
  intros E. unfold prepareRelocatable.
  rewrite (internalCompile_alloc_fails _ _ _ _ E). simpl.
  destruct (getCompilerErrorMessage_frame
              (set_mErrorCode BCC_OUT_OF_MEMORY (set_mCompiled None s)))
    as (H1 & H2 & H3 & _).
  destruct (getCompilerErrorMessage _); simpl in *. done.
Qed.

(** What prepareExecutable makes of the status and the artifact pointers of
    a Script in state Unknown. *)
Lemma prepareExecutable_artifacts env cacheDir cacheName flags s w :
  mStatus s = ScriptStatus.Unknown →
  let s' := (prepareExecutable env cacheDir cacheName flags s w).1.2 in
  (mStatus s' = ScriptStatus.Cached ∧ is_Some (mCached s') ∧
   mCompiled s' = mCompiled s) ∨
  (mStatus s' = ScriptStatus.Compiled ∧ is_Some (mCompiled s') ∧
   mCached s' = mCached s) ∨
  (mStatus s' = ScriptStatus.Unknown ∧ mCompiled s' = None ∧
   mCached s' = mCached s).
Proof.
  intros Hst. unfold prepareExecutable. rewrite (Unknown_guard _ Hst).
  destruct (internalLoadCache_result env cacheDir cacheName s w)
    as (r1 & s1 & w1 & -> & Hr1 & Hc1 & _ & _ & _ & _ & _ & _ & Hhit & Hmiss & _).
  destruct Hr1 as [-> | ->]; simpl.
  { left. destruct (Hhit eq_refl). done. }
  destruct Hmiss as [Hst1 Hcached1]; [done |].
  right.
  destruct (env_newScriptCompiled env) as [c|] eqn:E.
  - left.
    destruct (internalCompile_alloc_ok env CompilerOption_default s1 w1 c E)
      as (r & s2 & w2 & rest & -> & _ & Hst2 & Hc2 & Hcached2 & _).
    destruct (writeCache_result env s2 w2) as (r' & w3 & Hw & _).
    destruct (getCompilerErrorMessage_frame s2)
      as (_ & _ & _ & _ & _ & _ & _ & Hid).
    specialize (Hid Hst2).
    destruct (getCompilerErrorMessage s2) as [m s3]; simpl in Hid; subst s3.
    destruct (negb (r =? 0)); simpl; [split_and!; congruence |].
    rewrite Hw. destruct (negb (r' =? 0)); simpl; split_and!; congruence.
  - right. rewrite (internalCompile_alloc_fails _ _ _ _ E). simpl.
    destruct (getCompilerErrorMessage_frame
                (set_mErrorCode BCC_OUT_OF_MEMORY (set_mCompiled None s1)))
      as (H1 & H2 & H3 & _).
    destruct (getCompilerErrorMessage _); simpl in *.
    split_and!; congruence.
Qed.

Lemma artifacts_eq s s' :
  artifacts s' = artifacts s →
  mStatus s' = mStatus s ∧ mCompiled s' = mCompiled s ∧ mCached s' = mCached s.
Proof. unfold artifacts. intros [= -> -> ->]. done. Qed.

Ltac use_run_artifacts :=
  match goal with
  | |- context [run ?env ?c ?s ?w] => exact (run_artifacts env c s w)
  end.

Lemma run_prepareRelocatable env objPath reloc flags s w :
  run env (DoPrepareRelocatable objPath reloc flags) s w =
    ((prepareRelocatable env objPath reloc flags s w).1.2,
     (prepareRelocatable env objPath reloc flags s w).2).
Proof.
  unfold run. by destruct (prepareRelocatable _ _ _ _ _ _) as [[? ?] ?].
Qed.

Lemma run_prepareExecutable env cacheDir cacheName flags s w :
  run env (DoPrepareExecutable cacheDir cacheName flags) s w =
    ((prepareExecutable env cacheDir cacheName flags s w).1.2,
     (prepareExecutable env cacheDir cacheName flags s w).2).
Proof.
  unfold run. by destruct (prepareExecutable _ _ _ _ _ _) as [[? ?] ?].
Qed.

(** No call takes a finalized Script back to Unknown: the status is kept,
    or becomes Compiled. *)
Lemma run_status env c s w :
  mStatus s ≠ ScriptStatus.Unknown →
  mStatus (run env c s w).1 = mStatus s ∨
  mStatus (run env c s w).1 = ScriptStatus.Compiled.
Proof.
  intros Hst.
  destruct c as [| | |objPath reloc flags| |cacheDir cacheName flags
                 | | | | | | | | | | | |];
    try (left; by apply artifacts_eq; use_run_artifacts).
  - rewrite run_prepareRelocatable. cbn [fst].
    destruct (env_newScriptCompiled env) as [a|] eqn:E.
    + right. apply (prepareRelocatable_alloc_ok env objPath reloc flags s w a E).
    + left. apply (prepareRelocatable_alloc_fails env objPath reloc flags s w E).
  - rewrite run_prepareExecutable.
    rewrite (prepareExecutable_guard _ _ _ _ _ _ Hst). by left.
Qed.

Lemma run_never_back_to_Unknown env c s w :
  mStatus s ≠ ScriptStatus.Unknown →
  mStatus (run env c s w).1 ≠ ScriptStatus.Unknown.
Proof.
  intros Hst. destruct (run_status env c s w Hst) as [-> | ->]; done.
Qed.

Lemma run_Compiled_absorbing env c s w :
  mStatus s = ScriptStatus.Compiled →
  mStatus (run env c s w).1 = ScriptStatus.Compiled.
Proof.
  intros Hst. destruct (run_status env c s w) as [-> | ->]; congruence.
Qed.


(** ** The status is set first *)


(** ** The agreement under guarded calls *)

Lemma artifact_agreement_of_strict s :
  artifact_agreement_strict s → artifact_agreement s.
Proof.
  unfold artifact_agreement_strict, artifact_agreement.
  destruct (mStatus s); intros [H1 H2]; split_and!; auto; congruence.
Qed.

Lemma Script_new_agreement : artifact_agreement_strict Script_new.
Proof. by split. Qed.

(** Every call keeps the agreement, provided prepareRelocatable is only
    called on a Script in state Unknown. *)
Lemma guarded_run_agreement env call s w :
  guarded call s →
  artifact_agreement_strict s →
  artifact_agreement_strict (run env call s w).1.
Proof.
  intros Hg Hinv.
  destruct call as [| | |objPath reloc flags| |cacheDir cacheName flags
                    | | | | | | | | | | | |].
  all: try (
    match goal with
    | |- artifact_agreement_strict (run ?e ?c ?s ?w).1 =>
        destruct (artifacts_eq _ _ (run_artifacts e c s w)) as (H1 & H2 & H3);
        unfold artifact_agreement_strict in *; rewrite H1, H2, H3; exact Hinv
    end).
  - simpl in Hg. rewrite run_prepareRelocatable. cbn [fst].
    unfold artifact_agreement_strict in Hinv. rewrite Hg in Hinv.
    destruct Hinv as [Hc Hd].
    destruct (env_newScriptCompiled env) as [a|] eqn:E.
    + destruct (prepareRelocatable_alloc_ok env objPath reloc flags s w a E)
        as (H1 & H2 & H3).
      unfold artifact_agreement_strict. rewrite H1, H3. done.
    + destruct (prepareRelocatable_alloc_fails env objPath reloc flags s w E)
        as (H1 & H2 & H3).
      unfold artifact_agreement_strict. rewrite H1, H2, H3, Hg. done.
  - rewrite run_prepareExecutable. cbn [fst].
    destruct (decide (mStatus s = ScriptStatus.Unknown)) as [Hst|Hst].
    + unfold artifact_agreement_strict in Hinv. rewrite Hst in Hinv.
      destruct Hinv as [Hc Hd].
      destruct (prepareExecutable_artifacts env cacheDir cacheName flags s w Hst)
        as [(H1 & H2 & H3) | [(H1 & H2 & H3) | (H1 & H2 & H3)]];
        unfold artifact_agreement_strict; rewrite H1;
        split; congruence.
    + rewrite (prepareExecutable_guard _ _ _ _ _ _ Hst). exact Hinv.
Qed.


Lemma run_all_reachable cs s w :
  reachable s w → reachable (run_all cs s w).1 (run_all cs s w).2.
Proof.
  revert s w. induction cs as [|[env c] cs IH]; intros s w H; simpl; [done |].
  destruct (run env c s w) as [s1 w1] eqn:E.
  apply IH. by eapply reachable_step.
Qed.

(** ** prepareRelocatable and its output file *)

(** The file cannot be opened: the call fails and the disk is as the compile
    pipeline left it (which never touches it). *)
Lemma prepareRelocatable_open_fails env objPath reloc flags s w s2 w2 :
  internalCompile env {| RelocModelOpt := reloc; LoadAfterCompile := false |}
    s w = (0, s2, w2) →
  env_open_ok env objPath OpenMode.Write = false →
  prepareRelocatable env objPath reloc flags s w = (1, s2, w2) ∧
  files w2 = files w.
Proof.
  intros Hc Ho. unfold prepareRelocatable, fh_open. rewrite Hc, Ho. simpl.
  split; [done |].
  destruct (env_newScriptCompiled env) as [c|] eqn:E.
  - destruct (internalCompile_alloc_ok env
                {| RelocModelOpt := reloc; LoadAfterCompile := false |} s w c E)
      as (r & s3 & w3 & rest & Heq & _ & _ & _ & _ & _ & _ & _ & _ & _ & _
          & Hf & _).
    rewrite Hc in Heq. by simplify_eq.
  - rewrite (internalCompile_alloc_fails _ _ _ _ E) in Hc. discriminate.
Qed.

(** The file opens and the write comes up short: the file is unlinked, the
    object type is not set, and what the call returns is [false], that is 0. *)
Lemma prepareRelocatable_short_write env objPath reloc flags s w s2 w2 :
  internalCompile env {| RelocModelOpt := reloc; LoadAfterCompile := false |}
    s w = (0, s2, w2) →
  env_open_ok env objPath OpenMode.Write = true →
  to_size_t (env_write env (getELF s2) (getELFSize s2))
    ≠ Z.of_N (getELFSize s2) →
  ∃ w', prepareRelocatable env objPath reloc flags s w = (0, s2, w') ∧
        files w' !! objPath = None.
Proof.
  intros Hc Ho Hn. unfold prepareRelocatable, fh_open, fh_write, unlink.
  rewrite Hc, Ho. simpl.
  apply Z.eqb_neq in Hn.
  destruct (0 <? env_write env (getELF s2) (getELFSize s2)); simpl;
    rewrite Hn; simpl.
  - rewrite lookup_alter_eq, lookup_insert_eq. simpl.
    eexists. split; [reflexivity |]. simpl. apply lookup_delete_eq.
  - rewrite lookup_insert_eq. eexists. split; [reflexivity |].
    simpl. apply lookup_delete_eq.
Qed.

Lemma reachable_guarded_agreement s w :
  reachable_guarded s w → artifact_agreement s.
Proof.
  intros H. apply artifact_agreement_of_strict.
  induction H as [w | env c s w s' w' _ IH Hg Hrun].
  - apply Script_new_agreement.
  - pose proof (guarded_run_agreement env c s w Hg IH) as H.
    by rewrite Hrun in H.
Qed.

Lemma reachable_guarded_reachable s w :
  reachable_guarded s w → reachable s w.
Proof.
  induction 1; [apply reachable_new | by eapply reachable_step].
Qed.

End ScriptProperties.

(** * Concrete runs *)

Lemma addSource_after_finalization_witness :
  mStatus Toy.compiled_script ≠ ScriptStatus.Unknown ∧
  (addSourceBC Toy.miss_env 1 (Some "lib.bc") (Some []) 0 0
     Toy.compiled_script).1 = 1 ∧
  mErrorCode (addSourceBC Toy.miss_env 1 (Some "lib.bc") (Some []) 0 0
                Toy.compiled_script).2 = BCC_INVALID_OPERATION ∧
  mErrorCode (addSourceFile Toy.miss_env 1 None 0
                Toy.compiled_script Toy.empty_world).2 = BCC_INVALID_OPERATION.
Proof.
  assert (mStatus Toy.compiled_script ≠ ScriptStatus.Unknown) as H
    by (vm_compute; discriminate).
  split; [exact H |].
  destruct (addSource_after_finalization Toy.miss_env 1 (Some "lib.bc")
              (Some []) 0 (Some tt) None 0 Toy.compiled_script
              Toy.empty_world H)
    as ((H1 & _ & _ & H4) & _ & (_ & _ & _ & H8)).
  split_and!; assumption.
Defined.

(** The input on which C4, as stated, fails: a compiled Script and an
    [addSourceBC] with a null [resName] store [BCC_INVALID_VALUE]. *)
Lemma addSourceBC_null_resName_counterexample :
  mStatus Toy.compiled_script = ScriptStatus.Compiled ∧
  addSourceBC Toy.miss_env 0 None (Some []) 0 0 Toy.compiled_script =
    (1, set_mErrorCode BCC_INVALID_VALUE Toy.compiled_script) ∧
  mErrorCode (addSourceBC Toy.miss_env 0 None (Some []) 0 0
                Toy.compiled_script).2 = BCC_INVALID_VALUE.
Proof. split_and!; vm_compute; reflexivity. Qed.

Lemma registerSymbolCallback_stores_then_reports_witness :
  mpExtSymbolLookupFn
    (registerSymbolCallback 4096%N 8192%N Toy.cached_script).2 = 4096%N ∧
  mpExtSymbolLookupFnContext
    (registerSymbolCallback 4096%N 8192%N Toy.cached_script).2 = 8192%N ∧
  (registerSymbolCallback 4096%N 8192%N Toy.cached_script).1 = 1.
Proof.
  destruct (registerSymbolCallback_stores_then_reports 4096%N 8192%N
              Toy.cached_script) as (H1 & H2 & _ & _ & _ & H6).
  split_and!; [exact H1 | exact H2 |].
  apply H6. vm_compute. discriminate.
Defined.

Lemma queries_before_finalization_witness :
  mStatus (@Script_new Toy.backend) = ScriptStatus.Unknown ∧
  after_const getExportVarCount (@Script_new Toy.backend) = (0%N, Script_new) ∧
  getExportVarList 2 [1%N; 2%N] (@Script_new Toy.backend) =
    ([1%N; 2%N], set_mErrorCode BCC_INVALID_OPERATION Script_new).
Proof.
  split; [reflexivity |].
  destruct (queries_before_finalization (@Script_new Toy.backend) 2%N
              [1%N; 2%N] [] [] [] [] [] eq_refl)
    as ((H1 & _) & (H2 & _) & _).
  split; assumption.
Defined.

(** The input on which C5, as stated, fails: a count query on a fresh Script
    answers 0 and the error code is still [BCC_NO_ERROR]. *)
Lemma getExportVarCount_keeps_error_code_counterexample :
  mStatus (@Script_new Toy.backend) = ScriptStatus.Unknown ∧
  (after_const getExportVarCount (@Script_new Toy.backend)).1 = 0%N ∧
  mErrorCode (after_const getExportVarCount (@Script_new Toy.backend)).2
    = BCC_NO_ERROR.
Proof. split_and!; reflexivity. Qed.

Lemma queries_after_finalization_witness :
  mStatus Toy.cached_script = ScriptStatus.Cached ∧
  mCached Toy.cached_script = Some Toy.from_cache ∧
  getExportVarCount Toy.cached_script = 2%N ∧
  getExportVarList 2 [1%N; 2%N] Toy.cached_script =
    ([16%N; 32%N], Toy.cached_script).
Proof.
  assert (mStatus Toy.cached_script = ScriptStatus.Cached) as Hst
    by (vm_compute; reflexivity).
  assert (mCached Toy.cached_script = Some Toy.from_cache) as Hc
    by (vm_compute; reflexivity).
  split; [exact Hst |]. split; [exact Hc |].
  destruct (queries_after_finalization Toy.cached_script 2%N None
              [1%N; 2%N] [] [] [] [] []) as [_ H].
  destruct (H Toy.from_cache Hst Hc) as (H1 & _ & _ & _ & _ & _ & _ & H8 & _).
  split; [exact H1 | exact H8].
Defined.

(** The input on which C6, as stated, fails: on a Script loaded from the
    cache [getExportVarNameList] hands the list back as it got it and sets
    [BCC_INVALID_OPERATION]. *)
Lemma getExportVarNameList_cached_counterexample :
  mStatus Toy.cached_script = ScriptStatus.Cached ∧
  mCached Toy.cached_script = Some Toy.from_cache ∧
  mErrorCode Toy.cached_script = BCC_NO_ERROR ∧
  (getExportVarNameList ["x"] Toy.cached_script).1 = ["x"] ∧
  mErrorCode (getExportVarNameList ["x"] Toy.cached_script).2
    = BCC_INVALID_OPERATION.
Proof. split_and!; vm_compute; reflexivity. Qed.

Lemma prepareExecutable_after_compile_witness :
  mStatus Toy.with_source = ScriptStatus.Unknown ∧
  Toy.load_miss.1.1 ≠ 0 ∧
  Toy.compile_after_miss.1.1 = 0 ∧
  ∃ s' w',
    prepareExecutable Toy.miss_env (Some "/tmp/c") (Some "s1") 0
      Toy.with_source Toy.empty_world = (0, s', w') ∧
    mStatus s' = ScriptStatus.Compiled ∧
    mObjectType s' = ScriptObject.Executable.
Proof.
  split; [reflexivity |].
  split; [vm_compute; discriminate |].
  split; [vm_compute; reflexivity |].
  destruct (prepareExecutable_after_compile Toy.miss_env (Some "/tmp/c")
              (Some "s1") 0 Toy.with_source Toy.empty_world
              Toy.load_miss.1.1 Toy.load_miss.1.2 Toy.load_miss.2
              Toy.compile_after_miss.1.2 Toy.compile_after_miss.2)
    as (r & s' & w' & Heq & Hst & _ & _ & Hm).
  - reflexivity.
  - vm_compute. reflexivity.
  - vm_compute. discriminate.
  - vm_compute. reflexivity.
  - vm_compute in Hm. destruct Hm as [-> Ho].
    exists s', w'. split_and!; assumption.
Defined.


Lemma prepareExecutable_cacheDir_witness :
  mStatus Toy.with_source = ScriptStatus.Unknown ∧
  is_Some (Some "s1") ∧
  mCacheDir (prepareExecutable Toy.miss_env (Some "/tmp/c") (Some "s1") 0
               Toy.with_source Toy.empty_world).1.2 = "/tmp/c/" ∧
  ends_with_slash
    (mCacheDir (prepareExecutable Toy.miss_env (Some "/tmp/c") (Some "s1") 0
                  Toy.with_source Toy.empty_world).1.2) = true.
Proof.
  split; [reflexivity |]. split; [by eexists |].
  destruct (prepareExecutable_cacheDir Toy.miss_env "/tmp/c" (Some "s1") 0
              Toy.with_source Toy.empty_world) as [H _].
  destruct (H eq_refl (ex_intro _ "s1" eq_refl)) as (H1 & H2 & _).
  split; [exact H1 | apply H2; discriminate].
Defined.

(** The input on which C9, as stated, fails: the empty string is stored as
    it is. *)
Lemma prepareExecutable_empty_cacheDir_counterexample :
  mStatus Toy.with_source = ScriptStatus.Unknown ∧
  mCacheDir (prepareExecutable Toy.miss_env (Some "") (Some "s1") 0
               Toy.with_source Toy.empty_world).1.2 = "" ∧
  ends_with_slash
    (mCacheDir (prepareExecutable Toy.miss_env (Some "") (Some "s1") 0
                  Toy.with_source Toy.empty_world).1.2) = false.
Proof. split_and!; vm_compute; reflexivity. Qed.



(** C2 (the code at the failing input).  The pipeline succeeds, the output
    file opens, and the write of the 4 ELF bytes writes 2: prepareRelocatable
    unlinks the file and leaves the object type alone, but what it returns is
    [false], which as an [int] status is 0, success.  (When the file cannot
    be opened it returns 1 and the disk stays empty.) *)
Theorem prepareRelocatable_short_write_reports_success :
  (internalCompile Toy.short_write_env Toy.reloc_option
     Toy.with_source Toy.empty_world).1.1 = 0 ∧
  env_open_ok Toy.short_write_env "/tmp/out.o" OpenMode.Write = true ∧
  getELFSize (internalCompile Toy.short_write_env Toy.reloc_option
                Toy.with_source Toy.empty_world).1.2 = 4%N ∧
  env_write Toy.short_write_env (Some Toy.elf4) 4%N = 2 ∧
  (prepareRelocatable Toy.short_write_env "/tmp/out.o" tt 0
     Toy.with_source Toy.empty_world).1.1 = 0 ∧
  files (prepareRelocatable Toy.short_write_env "/tmp/out.o" tt 0
           Toy.with_source Toy.empty_world).2 !! "/tmp/out.o" = None ∧
  mObjectType (prepareRelocatable Toy.short_write_env "/tmp/out.o" tt 0
                 Toy.with_source Toy.empty_world).1.2 = ScriptObject.Unknown ∧
  (prepareRelocatable Toy.no_open_env "/tmp/out.o" tt 0
     Toy.with_source Toy.empty_world).1.1 = 1 ∧
  files (prepareRelocatable Toy.no_open_env "/tmp/out.o" tt 0
           Toy.with_source Toy.empty_world).2 = ∅.
Proof. split_and!; vm_compute; reflexivity. Qed.

(** C3 (the code at the failing input).  prepareRelocatable has no status
    check.  Called on a Script that a cache hit has put in state Cached, it
    runs the whole compile pipeline, returns 0, stores no error code and
    leaves the Script in state Compiled. *)
Theorem prepareRelocatable_reruns_pipeline_on_cached_script :
  mStatus Toy.cached_script = ScriptStatus.Cached ∧
  mErrorCode Toy.cached_script = BCC_NO_ERROR ∧
  (prepareRelocatable Toy.miss_env "/tmp/out.o" tt 0
     Toy.cached_script Toy.cached_world).1.1 = 0 ∧
  mErrorCode (prepareRelocatable Toy.miss_env "/tmp/out.o" tt 0
                Toy.cached_script Toy.cached_world).1.2 = BCC_NO_ERROR ∧
  mStatus (prepareRelocatable Toy.miss_env "/tmp/out.o" tt 0
             Toy.cached_script Toy.cached_world).1.2 = ScriptStatus.Compiled ∧
  trace (prepareRelocatable Toy.miss_env "/tmp/out.o" tt 0
           Toy.cached_script Toy.cached_world).2 =
    [ (CallNewScriptCompiled, ScriptStatus.Cached);
      (CallPrepareModule 0, ScriptStatus.Compiled);
      (CallReadModule, ScriptStatus.Compiled);
      (CallCompile, ScriptStatus.Compiled) ].
Proof. split_and!; vm_compute; reflexivity. Qed.

(** C8 (the code at two failing inputs).  Both states are reachable from a
    fresh Script.  After a cache hit followed by prepareRelocatable the
    compiled and the cached artifact pointers are both non-null.  After a
    prepareRelocatable followed by another one whose allocation fails the
    status is Compiled and the compiled artifact pointer is null. *)
Theorem reachable_state_breaks_agreement :
  (reachable Toy.two_artifacts_state.1 Toy.two_artifacts_state.2 ∧
   mStatus Toy.two_artifacts_state.1 = ScriptStatus.Compiled ∧
   mCompiled Toy.two_artifacts_state.1 = Some Toy.fresh ∧
   mCached Toy.two_artifacts_state.1 = Some Toy.from_cache ∧
   ¬ artifact_agreement Toy.two_artifacts_state.1) ∧
  (reachable Toy.lost_artifact_state.1 Toy.lost_artifact_state.2 ∧
   mStatus Toy.lost_artifact_state.1 = ScriptStatus.Compiled ∧
   mCompiled Toy.lost_artifact_state.1 = None ∧
   ¬ artifact_agreement Toy.lost_artifact_state.1).
Proof.
  split; split_and!; try (vm_compute; reflexivity).
  - unfold Toy.two_artifacts_state. apply run_all_reachable, reachable_new.
  - intros [[H | H] _]; vm_compute in H; discriminate.
  - unfold Toy.lost_artifact_state. apply run_all_reachable, reachable_new.
  - intros (_ & H & _).
    assert (mStatus Toy.lost_artifact_state.1 = ScriptStatus.Compiled) as Hst
      by (vm_compute; reflexivity).
    destruct (H Hst) as [c Hc]. vm_compute in Hc. discriminate.
Qed.

(** * Further properties of the Script *)

Section ScriptExtras.
Context `{B : Backend}.

Implicit Types (s : Script) (w : World) (env : Env).

(** ** Source slots *)

Lemma source_at_set_source_eq (idx : nat) v s :
  (idx < length (mSourceList s))%nat → source_at idx (set_source idx v s) = v.
Proof.
  intros H. unfold source_at, set_source. simpl.
  by rewrite list_lookup_insert_eq.
Qed.

Lemma source_at_set_source_ne (idx j : nat) v s :
  idx ≠ j → source_at j (set_source idx v s) = source_at j s.
Proof.
  intros H. unfold source_at, set_source. simpl.
  by rewrite list_lookup_insert_ne.
Qed.

(** X1.  On a Script in state Unknown, an addSource call whose arguments
    pass the checks leaves in slot [idx] exactly what the descriptor factory
    returned, whatever the slot held before, and leaves the other slot alone.
    It returns 0 and keeps the error code when the factory returned a
    descriptor; it returns 1 with [BCC_OUT_OF_MEMORY] when the factory
    returned NULL, and the slot is then empty. *)
Theorem addSource_stores_descriptor env idx name bitcode bitcodeSize module
    path flags s w :
  mStatus s = ScriptStatus.Unknown →
  (idx < length (mSourceList s))%nat →
  stat path w = 0 →
  let stored (created : option SourceInfo) (r : Z * Script) :=
    source_at idx r.2 = created ∧
    (∀ j, j ≠ idx → source_at j r.2 = source_at j s) ∧
    mStatus r.2 = ScriptStatus.Unknown ∧
    match created with
    | Some _ => r.1 = 0 ∧ mErrorCode r.2 = mErrorCode s
    | None => r.1 = 1 ∧ mErrorCode r.2 = BCC_OUT_OF_MEMORY
    end in
  stored (env_createFromBuffer env (Some name) (Some bitcode) bitcodeSize flags)
    (addSourceBC env idx (Some name) (Some bitcode) bitcodeSize flags s) ∧
  stored (env_createFromModule env module flags)
    (addSourceModule env idx (Some module) flags s) ∧
  stored (env_createFromFile env (Some path) flags)
    (addSourceFile env idx (Some path) flags s w).
Proof.
  intros Hst Hidx Hstat. simpl.
  unfold addSourceBC, addSourceModule, addSourceFile.
  rewrite Hst, Hstat. simpl.
  split; [| split];
    match goal with
    | |- context [set_source idx ?v s] =>
        rewrite !(source_at_set_source_eq idx v s Hidx);
        destruct v; simpl; unfold source_at, set_source; simpl;
        rewrite ?list_lookup_insert_eq by done;
        split_and!; try done;
        intros j Hj; by rewrite list_lookup_insert_ne
    end.
Qed.

(** X2.  On a Script in state Unknown, an addSource call with a null
    bitcode, module or path, or with a path that [stat] does not find,
    returns 1, stores [BCC_INVALID_VALUE] and changes nothing else: the
    descriptor factory is not reached and both slots keep their content. *)
Theorem addSource_rejects_bad_argument env idx name bitcodeSize path flags s w :
  mStatus s = ScriptStatus.Unknown →
  stat path w ≠ 0 →
  let rejected := (1, set_mErrorCode BCC_INVALID_VALUE s) in
  addSourceBC env idx (Some name) None bitcodeSize flags s = rejected ∧
  addSourceModule env idx None flags s = rejected ∧
  addSourceFile env idx None flags s w = rejected ∧
  addSourceFile env idx (Some path) flags s w = rejected ∧
  mSourceList rejected.2 = mSourceList s.
Proof.
  intros Hst Hstat. simpl.
  unfold addSourceBC, addSourceModule, addSourceFile. rewrite Hst. simpl.
  apply Z.eqb_neq in Hstat. rewrite Hstat. done.
Qed.


(** ** The compile pipeline, step by step *)

(** Everything one run of [internalCompile] does to the Script and to the
    world. *)
Lemma internalCompile_characterised env option s w :
  ∃ r s' w' evs,
    internalCompile env option s w = (r, s', w') ∧
    (r = 0 ∨ r = 1) ∧
    files w' = files w ∧
    trace w' = trace w ++ evs ∧
    Forall (λ p, event_kind p.1 = PipelineCall) evs ∧
    evs.*1 `prefix_of` pipeline_steps (has_library s) ∧
    (r = 0 → evs.*1 = pipeline_steps (has_library s)) ∧
    mErrorCode s' = match env_newScriptCompiled env with
                    | Some _ => mErrorCode s
                    | None => BCC_OUT_OF_MEMORY
                    end ∧
    (∀ i, is_Some (source_at i s') ↔ is_Some (source_at i s)) ∧
    length (mSourceList s') = length (mSourceList s) ∧
    mCached s' = mCached s ∧
    mObjectType s' = mObjectType s ∧
    mCacheDir s' = mCacheDir s ∧
    mCacheName s' = mCacheName s ∧
    mIsContextSlotNotAvail s' = mIsContextSlotNotAvail s ∧
    mpExtSymbolLookupFn s' = mpExtSymbolLookupFn s ∧
    mpExtSymbolLookupFnContext s' = mpExtSymbolLookupFnContext s.
Proof.
  destruct s as [ec st ot mc mca srcs cd cn slot fn ctx].
  unfold internalCompile, has_library, pipeline_steps, source_at, set_source.
  simpl. destruct (env_newScriptCompiled env) as [c|]; simpl.
  2: { do 3 eexists. exists [(CallNewScriptCompiled, st)].
       split_and!; try done; eauto; try (repeat constructor; fail).
       simpl. by eexists. }
  destruct srcs as [|a [|b l]]; simpl;
    repeat (case_match; simplify_eq; simpl in * );
    do 3 eexists; eexists;
    (split; [reflexivity |]);
    simpl; rewrite <- ?app_assoc; simpl;
    split_and!; try done; eauto;
    try (repeat constructor; fail);
    try (by eexists);
    try (intros [|[|i]]; simpl; split; intros [? ?]; simplify_eq; eauto; fail).
Qed.


Ltac step_facts :=
  repeat match goal with
  | H : negb (_ =? 0) = true |- _ => apply negb_true_iff, Z.eqb_neq in H
  | H : negb (_ =? 0) = false |- _ => apply negb_false_iff, Z.eqb_eq in H
  | H : Forall _ (_ :: _) |- _ => apply Forall_cons in H; destruct H as [? H]
  end.

Ltac split_steps :=
  repeat match goal with
  | |- context [si_prepareModule ?a ?b] =>
      destruct (si_prepareModule a b) as [? ?] eqn:?; simpl
  | |- context [sc_readModule ?a ?b] =>
      destruct (sc_readModule a b) as [? ?] eqn:?; simpl
  | |- context [sc_linkModule ?a ?b] =>
      destruct (sc_linkModule a b) as [? ?] eqn:?; simpl
  | |- context [sc_compile ?a ?b] =>
      destruct (sc_compile a b) as [? ?] eqn:?; simpl
  | |- context [negb (?r =? 0)] => destruct (negb (r =? 0)) eqn:?; simpl
  end.

Ltac stopped :=
  eexists;
  split; [simpl; rewrite <- ?app_assoc; reflexivity |];
  split; [reflexivity |];
  split;
  [ intros; first [discriminate
                  | split; [by eexists | step_facts; repeat constructor;
                                         simpl; lia]]
  | intros [Hs Hall]; step_facts; simpl in *;
    first [lia | by destruct Hs] ].

(** The calls the pipeline makes are the steps up to and including the
    first one that answers non-zero, and it returns 0 exactly when there is
    a primary source and no step answers non-zero. *)
Lemma internalCompile_stops_at_first_failure env option s w :
  ∃ evs,
    trace (internalCompile env option s w).2 = trace w ++ evs ∧
    evs.*1 = (through_first_failure (pipeline_results env option s)).*1 ∧
    ((internalCompile env option s w).1.1 = 0 ↔
       is_Some (source_at 0 s) ∧
       Forall (λ step, step.2 = 0) (pipeline_results env option s)).
Proof.
  destruct s as [ec st ot mc mca srcs cd cn slot fn ctx].
  unfold internalCompile, pipeline_results, source_at, set_source.
  simpl. destruct (env_newScriptCompiled env) as [c|]; simpl; [| stopped].
  generalize (if negb (is_null fn) then sc_registerSymbolCallback c fn ctx
              else c).
  intros c1.
  destruct srcs as [|[a|] [|[b|] l]]; simpl; split_steps; stopped.
Qed.

(** With an artifact allocated and a primary source in slot 0, the steps
    that answer are the whole fixed sequence. *)
Lemma pipeline_results_steps env option s :
  is_Some (env_newScriptCompiled env) →
  is_Some (source_at 0 s) →
  (pipeline_results env option s).*1 = pipeline_steps (has_library s).
Proof.
  intros [c Hc] [a Ha].
  unfold pipeline_results, pipeline_steps, has_library.
  rewrite Hc, Ha. by destruct (source_at 1 s).
Qed.

(** X3.  The compile pipeline calls its collaborators in one fixed order
    (allocate, parse the primary, parse the library if slot 1 holds one,
    read, link if there is a library, compile), each step on the objects as
    the steps before it left them, and stops at the first step that fails:
    the calls it makes are exactly the steps up to and including the first
    one that answers non-zero (a NULL allocation counting as such), and no
    call follows it.  It returns 0 exactly when slot 0 holds a source and
    every step answered 0, having then made all the calls of the sequence,
    and 1 otherwise.  It never touches a file. *)
Theorem internalCompile_steps_in_order env option s w :
  ∃ r s' w' evs,
    internalCompile env option s w = (r, s', w') ∧
    (r = 0 ∨ r = 1) ∧
    trace w' = trace w ++ evs ∧
    evs.*1 = (through_first_failure (pipeline_results env option s)).*1 ∧
    (r = 0 ↔
       is_Some (source_at 0 s) ∧
       Forall (λ step, step.2 = 0) (pipeline_results env option s)) ∧
    (is_Some (env_newScriptCompiled env) → is_Some (source_at 0 s) →
     (pipeline_results env option s).*1 = pipeline_steps (has_library s)) ∧
    evs.*1 `prefix_of` pipeline_steps (has_library s) ∧
    (r = 0 → evs.*1 = pipeline_steps (has_library s)) ∧
    files w' = files w.
Proof.
  destruct (internalCompile_characterised env option s w)
    as (r & s' & w' & evs & Heq & Hr & Hf & Ht & _ & Hp & Hall & _).
  destruct (internalCompile_stops_at_first_failure env option s w)
    as (evs' & Ht' & Hstop & Hiff).
  rewrite Heq in Ht', Hiff. simpl in Ht', Hiff.
  rewrite Ht in Ht'. apply app_inv_head in Ht'. subst evs'.
  exists r, s', w', evs. split_and!; try done.
  apply pipeline_results_steps.
Qed.

(** X4.  Whatever the compile pipeline returns, it stores an error code
    only when the ScriptCompiled allocation fails ([BCC_OUT_OF_MEMORY]): a
    missing source or a failing parse, link or compile step leaves
    [mErrorCode] as it was.  It never empties or fills a source slot and
    never touches the cached artifact, the cache location, the object type
    or the symbol resolver. *)
Theorem internalCompile_leaves_alone env option s w :
  let s' := (internalCompile env option s w).1.2 in
  mErrorCode s' = match env_newScriptCompiled env with
                  | Some _ => mErrorCode s
                  | None => BCC_OUT_OF_MEMORY
                  end ∧
  (∀ i, is_Some (source_at i s') ↔ is_Some (source_at i s)) ∧
  mCached s' = mCached s ∧
  mObjectType s' = mObjectType s ∧
  mCacheDir s' = mCacheDir s ∧
  mCacheName s' = mCacheName s ∧
  mpExtSymbolLookupFn s' = mpExtSymbolLookupFn s ∧
  mpExtSymbolLookupFnContext s' = mpExtSymbolLookupFnContext s.
Proof.
  destruct (internalCompile_characterised env option s w)
    as (r & s' & w' & evs & -> & _ & _ & _ & _ & _ & _ & He & Hs & _ & Hc
        & Ho & Hd & Hn & _ & Hf & Hx).
  simpl. done.
Qed.

(** X5.  With no primary source in slot 0 and a successful allocation the
    pipeline returns 1 after the allocation alone: no source is parsed and
    nothing is read, linked or compiled.  The Script is nevertheless left in
    state Compiled, holding the new artifact (with the symbol resolver
    registered on it if the Script has one), and no error code is stored. *)
Theorem internalCompile_without_primary_source env option s w c :
  source_at 0 s = None →
  env_newScriptCompiled env = Some c →
  ∃ s',
    internalCompile env option s w =
      (1, s', log CallNewScriptCompiled (mStatus s) w) ∧
    mStatus s' = ScriptStatus.Compiled ∧
    mCompiled s' =
      Some (if is_null (mpExtSymbolLookupFn s) then c
            else sc_registerSymbolCallback c (mpExtSymbolLookupFn s)
                   (mpExtSymbolLookupFnContext s)) ∧
    mErrorCode s' = mErrorCode s ∧
    mSourceList s' = mSourceList s.
Proof.
  intros Hsrc Halloc. unfold internalCompile. simpl. rewrite Halloc. simpl.
  unfold source_at in *. simpl. rewrite Hsrc.
  eexists. split; [reflexivity |]. simpl.
  by destruct (is_null (mpExtSymbolLookupFn s)).
Qed.

(** ** The cache reader and writer, step by step *)

Lemma isCacheable_ext env s1 s2 :
  mCacheDir s1 = mCacheDir s2 → mCacheName s1 = mCacheName s2 →
  isCacheable env s1 = isCacheable env s2.
Proof. unfold isCacheable. by intros -> ->. Qed.

(** Everything one run of [internalLoadCache] does. *)
Lemma internalLoadCache_characterised env cacheDir cacheName checkOnly s w :
  ∃ r s' w' evs,
    internalLoadCache env cacheDir cacheName checkOnly s w = (r, s', w') ∧
    (r = 0 ∨ r = 1) ∧
    files w' = files w ∧
    trace w' = trace w ++ evs ∧
    Forall (λ p, event_kind p.1 = CodecCall ∨ event_kind p.1 = ResolverCall)
      evs ∧
    mCompiled s' = mCompiled s ∧
    mErrorCode s' = mErrorCode s ∧
    mObjectType s' = mObjectType s ∧
    mSourceList s' = mSourceList s ∧
    mpExtSymbolLookupFn s' = mpExtSymbolLookupFn s ∧
    mpExtSymbolLookupFnContext s' = mpExtSymbolLookupFnContext s ∧
    mCacheDir s' = match cacheDir, cacheName with
                   | Some dir, Some _ => sanitized dir
                   | _, _ => mCacheDir s
                   end ∧
    mCacheName s' = match cacheDir, cacheName with
                    | Some _, Some name => name
                    | _, _ => mCacheName s
                    end ∧
    (r = 0 → checkOnly = false →
       mStatus s' = ScriptStatus.Cached ∧ is_Some (mCached s')) ∧
    (r ≠ 0 ∨ checkOnly = true →
       mStatus s' = mStatus s ∧ mCached s' = mCached s) ∧
    (checkOnly = true →
       mIsContextSlotNotAvail s' = mIsContextSlotNotAvail s ∧
       Forall (λ p, p.1 = CallCheckCacheFile) evs) ∧
    (isCacheable env s' = false → r = 1 ∧ w' = w) ∧
    (files w !! getCachedObjectPath s' = None ∨
     files w !! getCacheInfoPath s' = None → r = 1 ∧ w' = w).
Proof.
  unfold internalLoadCache, sanitized, ends_with_slash, fh_open,
    getCachedObjectPath, getCacheInfoPath.
  destruct cacheDir as [dir|], cacheName as [name|], checkOnly; simpl;
    repeat case_match; simplify_eq; simpl;
    do 3 eexists; eexists; (split; [reflexivity |]);
    simpl; rewrite <- ?app_assoc; simpl.
  all: split_and!; simpl; try done; eauto.
  all: try (rewrite ?app_nil_r; reflexivity).
  all: try (repeat constructor; simpl; eauto; fail).
  all: try (intros; congruence).
  all: try (intros [?|?]; congruence).
  all: intros Hc; unfold isCacheable in *; simpl in *;
    repeat match goal with
    | H : _ && _ = true |- _ => apply andb_true_iff in H; destruct H
    | H : bool_decide _ = true |- _ => apply bool_decide_eq_true in H
    | H : negb _ = false |- _ => apply negb_false_iff in H
    end;
    first [ congruence
          | destruct Hc as [Hc | Hc]; rewrite Hc in *;
            match goal with H : is_Some None |- _ => by destruct H end ].
Qed.


Lemma unlink_world path w :
  (unlink path w).2 = set_files (delete path (files w)) w.
Proof.
  unfold unlink. destruct (files w !! path) eqn:E; simpl; [done |].
  rewrite delete_id by done. by destruct w.
Qed.

Lemma unlink_eq path w :
  unlink path w = ((unlink path w).1, set_files (delete path (files w)) w).
Proof. rewrite <- unlink_world. by destruct (unlink path w). Qed.

(** Everything one run of [writeCache] does to the world. *)
Lemma writeCache_characterised env s w :
  ∃ r w' evs,
    writeCache env s w = (r, s, w') ∧
    trace w' = trace w ++ evs ∧
    Forall (λ p, event_kind p.1 = CodecCall ∨ event_kind p.1 = ResolverCall)
      evs ∧
    (∀ p, p ≠ getCachedObjectPath s → p ≠ getCacheInfoPath s →
          files w' !! p = files w !! p) ∧
    (isCacheable env s = false → w' = w) ∧
    (r ≠ 0 → w' = w).
Proof.
  unfold writeCache, getCompilerErrorMessage.
  destruct (ScriptStatus.eqb (mStatus s) ScriptStatus.Compiled); simpl.
  2: { exists 1, w, []. rewrite app_nil_r. split_and!; done. }
  destruct (deref (mCompiled s) None sc_getCompilerErrorMessage).
  2: { exists 1, w, []. rewrite app_nil_r. split_and!; done. }
  destruct (isCacheable env s) eqn:Hcache.
  2: { exists 0, w, []. rewrite app_nil_r. split_and!; done. }
  rewrite (unlink_eq (getCachedObjectPath s) w). cbv beta iota zeta.
  rewrite (unlink_eq (getCacheInfoPath s)). cbv beta iota zeta.
  unfold fh_open, fh_truncate.
  repeat first
    [ rewrite (unlink_eq (getCachedObjectPath s))
    | rewrite (unlink_eq (getCacheInfoPath s))
    | progress cbv beta iota zeta
    | case_match; simplify_eq ].
  all: do 2 eexists; eexists; (split; [reflexivity |]);
    simpl; rewrite <- ?app_assoc; simpl;
    (split; [first [reflexivity | symmetry; apply app_nil_r] |]);
    (split; [repeat constructor; simpl; eauto |]);
    (split; [| split; intros; congruence]);
    intros p Ho Hi;
    repeat first [ rewrite lookup_delete_ne by done
                 | rewrite lookup_alter_ne by done
                 | rewrite lookup_insert_ne by done ];
    reflexivity.
Qed.


(** ** prepareExecutable, as a whole *)

Lemma kinds_of_cache_calls (evs : list (Event * ScriptStatus.t)) :
  Forall (λ p, event_kind p.1 = CodecCall ∨ event_kind p.1 = ResolverCall) evs →
  Forall (λ p, event_kind p.1 ≠ DebuggerCall) evs ∧
  Forall (λ p, event_kind p.1 ≠ PipelineCall) evs.
Proof.
  intros H. split; eapply Forall_impl; eauto; simpl; intros ? [-> | ->]; done.
Qed.

Lemma kinds_of_pipeline_calls (evs : list (Event * ScriptStatus.t)) :
  Forall (λ p, event_kind p.1 = PipelineCall) evs →
  Forall (λ p, event_kind p.1 ≠ DebuggerCall) evs ∧
  Forall (λ p, event_kind p.1 ≠ CodecCall) evs.
Proof.
  intros H. split; eapply Forall_impl; eauto; simpl; intros ? ->; done.
Qed.

Lemma no_new_events w w' (evs : list (Event * ScriptStatus.t)) :
  w' = w → trace w' = trace w ++ evs → evs = [].
Proof.
  intros -> H. apply (app_inv_head (trace w)). by rewrite app_nil_r.
Qed.

Lemma internalCompile_status env option s w :
  mStatus (internalCompile env option s w).1.2 = ScriptStatus.Compiled ∨
  mStatus (internalCompile env option s w).1.2 = mStatus s.
Proof.
  destruct (env_newScriptCompiled env) as [c|] eqn:E.
  - destruct (internalCompile_alloc_ok env option s w c E)
      as (r & s' & w' & rest & -> & _ & Hst & _). by left.
  - rewrite (internalCompile_alloc_fails _ _ _ _ E). by right.
Qed.

(** Everything one prepareExecutable call does on a Script in state
    Unknown. *)
Lemma prepareExecutable_characterised env cacheDir cacheName flags s w :
  mStatus s = ScriptStatus.Unknown →
  ∃ r s' w' evs,
    prepareExecutable env cacheDir cacheName flags s w = (r, s', w') ∧
    (r = 0 ∨ r = 1) ∧
    trace w' = trace w ++ evs ∧
    (∀ p, p ≠ getCachedObjectPath s' → p ≠ getCacheInfoPath s' →
          files w' !! p = files w !! p) ∧
    (isCacheable env s' = false →
       files w' = files w ∧
       Forall (λ p, event_kind p.1 ≠ CodecCall) evs ∧
       mStatus s' ≠ ScriptStatus.Cached) ∧
    (r = 0 →
       mObjectType s' = ScriptObject.Executable ∧
       mErrorCode s' = mErrorCode s ∧
       mStatus s' ≠ ScriptStatus.Unknown ∧
       ∃ pre, evs = pre ++ [(CallRegisterObjectWithGDB (getELF s')
                               (getELFSize s'), mStatus s')] ∧
              Forall (λ p, event_kind p.1 ≠ DebuggerCall) pre) ∧
    (r ≠ 0 →
       mObjectType s' = mObjectType s ∧
       Forall (λ p, event_kind p.1 ≠ DebuggerCall) evs) ∧
    mCacheDir s' = match cacheDir, cacheName with
                   | Some dir, Some _ => sanitized dir
                   | _, _ => mCacheDir s
                   end ∧
    mCacheName s' = match cacheDir, cacheName with
                    | Some _, Some name => name
                    | _, _ => mCacheName s
                    end.
Proof.
  intros Hst. unfold prepareExecutable. rewrite (Unknown_guard _ Hst).
  destruct (internalLoadCache_characterised env cacheDir cacheName false s w)
    as (r1 & s1 & w1 & ev1 & -> & Hr1 & Hf1 & Ht1 & Hk1 & Hc1 & He1 & Ho1
        & Hsl1 & _ & _ & Hd1 & Hn1 & Hhit & Hmiss & _ & Hnc1 & _).
  destruct (kinds_of_cache_calls _ Hk1) as [Hk1d Hk1p].
  destruct Hr1 as [-> | ->]; simpl.
  - (* the cache was loaded *)
    destruct (Hhit eq_refl eq_refl) as [Hs1 Hca1].
    unfold prepareExecutable_finish.
    eexists 0, _, _, (ev1 ++ [_]). split; [reflexivity |].
    split_and!; simpl; auto; try (rewrite <- Hd1; congruence);
      try (rewrite <- Hn1; congruence).
    + by rewrite Ht1, app_assoc.
    + intros p _ _. by rewrite Hf1.
    + intros Hnc. destruct (Hnc1 Hnc) as [? _]. done.
    + intros _. split_and!; try done; try congruence.
      eexists. split; [reflexivity | done].
    + done.
  - (* the cache was not loaded: compile *)
    destruct Hmiss as [Hs1 Hca1]; [left; done |].
    destruct (internalCompile_characterised env CompilerOption_default s1 w1)
      as (r2 & s2 & w2 & ev2 & Hcomp & Hr2 & Hf2 & Ht2 & Hk2 & _ & _ & He2
          & _ & _ & _ & Ho2 & Hd2 & Hn2 & _).
    rewrite Hcomp.
    destruct (kinds_of_pipeline_calls _ Hk2) as [Hk2d Hk2c].
    destruct Hr2 as [-> | ->]; simpl.
    + (* compiled: write the cache *)
      destruct (internalCompile_success _ _ _ _ _ _ Hcomp)
        as (Hs2 & _ & _ & He2' & _).
      destruct (writeCache_characterised env s2 w2)
        as (r3 & w3 & ev3 & Hw & Ht3 & Hk3 & Hf3 & Hnc3 & Hfail3).
      destruct (writeCache_result env s2 w2) as (r3' & w3' & Hw' & Hr3 & _).
      rewrite Hw in Hw'. simplify_eq. rewrite Hw.
      destruct (kinds_of_cache_calls _ Hk3) as [Hk3d Hk3p].
      destruct Hr3 as [-> | ->]; simpl.
      * unfold prepareExecutable_finish.
        eexists 0, _, _, ((ev1 ++ ev2 ++ ev3) ++ [_]).
        split; [reflexivity |].
        split_and!; simpl; auto; try (rewrite <- Hd1; congruence);
      try (rewrite <- Hn1; congruence).
        -- by rewrite Ht3, Ht2, Ht1, <- !app_assoc.
        -- intros p Hp1 Hp2.
           unfold getCachedObjectPath, getCacheInfoPath in *. simpl in *.
           rewrite Hf3 by done. by rewrite Hf2, Hf1.
        -- intros Hnc.
           assert (isCacheable env s2 = false) as Hnc2.
           { rewrite <- Hnc. by apply isCacheable_ext. }
           assert (isCacheable env s1 = false) as Hnc1'.
           { rewrite <- Hnc2. by apply isCacheable_ext. }
           destruct (Hnc1 Hnc1') as [_ ->].
           pose proof (Hnc3 Hnc2) as ->.
           rewrite (no_new_events _ _ _ eq_refl Ht1).
           rewrite (no_new_events _ _ _ eq_refl Ht3).
           split_and!; try done; try congruence.
           rewrite app_nil_r. simpl.
           apply Forall_app. split; [done | by repeat constructor].
        -- intros _. split_and!; try done; try congruence.
           eexists. split; [reflexivity |].
           rewrite !Forall_app. done.
        -- done.
      * pose proof (Hfail3 ltac:(done)) as ->.
        rewrite (no_new_events _ _ _ eq_refl Ht3) in *.
        eexists 1, _, _, (ev1 ++ ev2).
        split; [reflexivity |].
        split_and!; simpl; auto; try (rewrite <- Hd1; congruence);
      try (rewrite <- Hn1; congruence).
        -- by rewrite Ht2, Ht1, <- !app_assoc.
        -- intros p _ _. by rewrite Hf2, Hf1.
        -- intros Hnc.
           assert (isCacheable env s1 = false) as Hnc1'.
           { rewrite <- Hnc. by apply isCacheable_ext. }
           destruct (Hnc1 Hnc1') as [_ ->].
           rewrite (no_new_events _ _ _ eq_refl Ht1).
           split_and!; try done; congruence.
        -- done.
        -- intros _. split; [congruence |]. rewrite Forall_app. done.
    + (* the pipeline failed *)
      destruct (getCompilerErrorMessage_frame s2)
        as (Hg1 & Hg2 & Hg3 & Hg4 & Hg5 & Hg6 & Hg7 & _).
      destruct (getCompilerErrorMessage s2) as [m s3]. simpl in *.
      eexists 1, _, _, (ev1 ++ ev2).
      split; [reflexivity |].
      split_and!; simpl; auto; try (rewrite <- Hd1; congruence);
      try (rewrite <- Hn1; congruence).
      * by rewrite Ht2, Ht1, <- !app_assoc.
      * intros p _ _. by rewrite Hf2, Hf1.
      * intros Hnc.
        assert (isCacheable env s1 = false) as Hnc1'.
        { rewrite <- Hnc. apply isCacheable_ext; congruence. }
        destruct (Hnc1 Hnc1') as [_ ->].
        rewrite (no_new_events _ _ _ eq_refl Ht1).
        split_and!; try done; try congruence.
        rewrite Hg1.
        match type of Hcomp with
        | internalCompile ?e ?o ?a ?b = _ =>
            destruct (internalCompile_status e o a b) as [Hx | Hx]
        end; rewrite Hcomp in Hx; simpl in Hx; congruence.
      * done.
      * intros _. split; [congruence |]. rewrite Forall_app. done.
Qed.


(** X6.  A prepareExecutable call on a Script in state Unknown returns 0 or
    1.  When it returns 0 the object type is Executable, the Script is
    finalized, the error code is the one it had before, and the registration
    of the active artifact's ELF image with the debugger is the last call
    made and the only call on the debugger.  When it returns 1 the object
    type is unchanged and the debugger is not called at all. *)
Theorem prepareExecutable_registers_on_success_only env cacheDir cacheName
    flags s w :
  mStatus s = ScriptStatus.Unknown →
  ∃ r s' w' evs,
    prepareExecutable env cacheDir cacheName flags s w = (r, s', w') ∧
    (r = 0 ∨ r = 1) ∧
    trace w' = trace w ++ evs ∧
    (r = 0 →
       mObjectType s' = ScriptObject.Executable ∧
       mErrorCode s' = mErrorCode s ∧
       mStatus s' ≠ ScriptStatus.Unknown ∧
       ∃ pre, evs = pre ++ [(CallRegisterObjectWithGDB (getELF s')
                               (getELFSize s'), mStatus s')] ∧
              Forall (λ p, event_kind p.1 ≠ DebuggerCall) pre) ∧
    (r = 1 →
       mObjectType s' = mObjectType s ∧
       Forall (λ p, event_kind p.1 ≠ DebuggerCall) evs).
Proof.
  intros Hst.
  destruct (prepareExecutable_characterised env cacheDir cacheName flags s w Hst)
    as (r & s' & w' & evs & Heq & Hr & Ht & _ & _ & Hok & Hfail & _).
  exists r, s', w', evs. split_and!; try done.
  intros ->. by apply Hfail.
Qed.

(** X7.  When caching is off, because the property "debug.bcc.nocache" is
    set or because the cache directory or the cache name given is the empty
    string, a prepareExecutable call on a Script in state Unknown neither
    reads nor writes, creates or removes any file, never calls the cache
    codec, and cannot leave the Script in state Cached. *)
Theorem prepareExecutable_without_cache env cacheDir cacheName flags s w :
  mStatus s = ScriptStatus.Unknown →
  getBooleanProp env "debug.bcc.nocache" = true ∨
  (∃ dir name, cacheDir = Some dir ∧ cacheName = Some name ∧
               (dir = "" ∨ name = "")) →
  ∃ r s' w' evs,
    prepareExecutable env cacheDir cacheName flags s w = (r, s', w') ∧
    files w' = files w ∧
    trace w' = trace w ++ evs ∧
    Forall (λ p, event_kind p.1 ≠ CodecCall) evs ∧
    mStatus s' ≠ ScriptStatus.Cached.
Proof.
  intros Hst Hoff.
  destruct (prepareExecutable_characterised env cacheDir cacheName flags s w Hst)
    as (r & s' & w' & evs & Heq & _ & Ht & _ & Hnc & _ & _ & Hd & Hn).
  exists r, s', w', evs.
  assert (isCacheable env s' = false) as Hc.
  { unfold isCacheable.
    destruct Hoff as [-> | (dir & name & -> & -> & [-> | ->])]; [done | |].
    - rewrite Hd. by destruct (getBooleanProp _ _).
    - rewrite Hn. destruct (getBooleanProp _ _); [done |].
      by rewrite orb_true_r. }
  destruct (Hnc Hc) as (? & ? & ?). done.
Qed.

(** X8.  Whatever it returns, a prepareExecutable call on a Script in state
    Unknown leaves every file other than the two cache files of the stored
    cache location exactly as it was. *)
Theorem prepareExecutable_touches_only_cache_files env cacheDir cacheName
    flags s w p :
  mStatus s = ScriptStatus.Unknown →
  let r := prepareExecutable env cacheDir cacheName flags s w in
  p ≠ getCachedObjectPath r.1.2 →
  p ≠ getCacheInfoPath r.1.2 →
  files r.2 !! p = files w !! p.
Proof.
  intros Hst.
  destruct (prepareExecutable_characterised env cacheDir cacheName flags s w Hst)
    as (r & s' & w' & evs & -> & _ & _ & Hf & _).
  simpl. apply Hf.
Qed.

(** X9.  When the cache load succeeds, prepareExecutable skips the compile
    pipeline entirely: it returns 0 with the Script in state Cached and a
    cached artifact, makes no pipeline call (not even the ScriptCompiled
    allocation), leaves the compiled-artifact pointer and every file as they
    were, and sets the object type to Executable. *)
Theorem prepareExecutable_cache_hit env cacheDir cacheName flags s w :
  mStatus s = ScriptStatus.Unknown →
  (internalLoadCache env cacheDir cacheName false s w).1.1 = 0 →
  ∃ s' w' evs,
    prepareExecutable env cacheDir cacheName flags s w = (0, s', w') ∧
    mStatus s' = ScriptStatus.Cached ∧
    is_Some (mCached s') ∧
    mCompiled s' = mCompiled s ∧
    mObjectType s' = ScriptObject.Executable ∧
    files w' = files w ∧
    trace w' = trace w ++ evs ∧
    Forall (λ p, event_kind p.1 ≠ PipelineCall) evs.
Proof.
  intros Hst Hhit. unfold prepareExecutable. rewrite (Unknown_guard _ Hst).
  destruct (internalLoadCache_characterised env cacheDir cacheName false s w)
    as (r1 & s1 & w1 & ev1 & Heq & _ & Hf1 & Ht1 & Hk1 & Hc1 & _ & _ & _ & _
        & _ & _ & _ & Hok & _).
  rewrite Heq in *. simpl in Hhit. subst r1. simpl.
  destruct (Hok eq_refl eq_refl) as [Hs1 Hca1].
  destruct (kinds_of_cache_calls _ Hk1) as [_ Hk1p].
  unfold prepareExecutable_finish.
  eexists _, _, (ev1 ++ [_]). split; [reflexivity |].
  split_and!; simpl; try done.
  - by rewrite Ht1, app_assoc.
  - apply Forall_app. split; [done | by repeat constructor].
Qed.

(** X10.  When the cache load misses and the compile pipeline fails,
    prepareExecutable returns 1 and stops there: nothing is written to the
    cache, the debugger is not called, the object type and every file stay
    as they were.  If the failure was the ScriptCompiled allocation the
    Script is still in state Unknown, and the error code it ends with is
    [BCC_INVALID_OPERATION], not [BCC_OUT_OF_MEMORY]: the failure log line
    calls [getCompilerErrorMessage], which stores it because the status is
    not Compiled.  If the allocation succeeded the Script is left in state
    Compiled and the error code is the one it had before. *)
Theorem prepareExecutable_compile_failure env cacheDir cacheName flags
    s w s1 w1 r2 s2 w2 :
  mStatus s = ScriptStatus.Unknown →
  internalLoadCache env cacheDir cacheName false s w = (1, s1, w1) →
  internalCompile env CompilerOption_default s1 w1 = (r2, s2, w2) →
  r2 ≠ 0 →
  ∃ s',
    prepareExecutable env cacheDir cacheName flags s w = (1, s', w2) ∧
    files w2 = files w ∧
    mObjectType s' = mObjectType s ∧
    match env_newScriptCompiled env with
    | None => mStatus s' = ScriptStatus.Unknown ∧
              mCompiled s' = None ∧
              mErrorCode s' = BCC_INVALID_OPERATION
    | Some _ => mStatus s' = ScriptStatus.Compiled ∧
                is_Some (mCompiled s') ∧
                mErrorCode s' = mErrorCode s
    end.
Proof.
  intros Hst Hload Hcomp Hr2. unfold prepareExecutable.
  rewrite (Unknown_guard _ Hst), Hload. simpl. rewrite Hcomp.
  destruct (internalLoadCache_characterised env cacheDir cacheName false s w)
    as (r1 & s1' & w1' & ev1 & Heq & _ & Hf1 & _ & _ & _ & He1 & Ho1 & _ & _
        & _ & _ & _ & _ & Hmiss & _).
  rewrite Hload in Heq. simplify_eq.
  destruct Hmiss as [Hs1 _]; [left; done |].
  destruct (internalCompile_characterised env CompilerOption_default s1' w1')
    as (r2' & s2' & w2' & ev2 & Heq & Hr & Hf2 & _ & _ & _ & _ & He2 & _ & _
        & _ & Ho2 & _).
  rewrite Hcomp in Heq. simplify_eq.
  destruct Hr as [-> | ->]; [done |]. simpl.
  destruct (env_newScriptCompiled env) as [c|] eqn:E.
  - destruct (internalCompile_alloc_ok env CompilerOption_default s1' w1' c E)
      as (r & s3 & w3 & rest & Heq & _ & Hs2 & Hc2 & _).
    rewrite Hcomp in Heq. simplify_eq.
    destruct (getCompilerErrorMessage_frame s3)
      as (_ & _ & _ & _ & _ & _ & _ & Hid).
    specialize (Hid Hs2).
    destruct (getCompilerErrorMessage s3) as [m s4]. simpl in *. subst s4.
    eexists. split; [reflexivity |]. split_and!; congruence.
  - rewrite (internalCompile_alloc_fails _ _ _ _ E) in Hcomp. simplify_eq.
    unfold getCompilerErrorMessage. simpl. rewrite Hs1, Hst. simpl.
    eexists. split; [reflexivity |]. simpl. split_and!; congruence.
Qed.


(** ** writeCache and the cache files *)






(** ** internalLoadCache *)


(** X15.  [internalLoadCache] reports a miss (returns 1) without calling
    the cache codec, and leaves the world, the status and both artifact
    pointers untouched, whenever an argument is NULL, caching is off after
    the location has been stored, or one of the two cache files is not on
    disk.  With a NULL argument not even the cache location is stored. *)
Theorem internalLoadCache_early_miss env cacheDir cacheName checkOnly s w :
  let r := internalLoadCache env cacheDir cacheName checkOnly s w in
  (cacheDir = None ∨ cacheName = None → r = (1, s, w)) ∧
  (isCacheable env r.1.2 = false ∨
   files w !! getCachedObjectPath r.1.2 = None ∨
   files w !! getCacheInfoPath r.1.2 = None →
     r.1.1 = 1 ∧ r.2 = w ∧
     mStatus r.1.2 = mStatus s ∧
     mCompiled r.1.2 = mCompiled s ∧
     mCached r.1.2 = mCached s).
Proof.
  simpl. split.
  - unfold internalLoadCache. intros [-> | ->]; [done |].
    by destruct cacheDir.
  - destruct (internalLoadCache_characterised env cacheDir cacheName
                checkOnly s w)
      as (r & s' & w' & evs & -> & _ & _ & _ & _ & Hc & _ & _ & _ & _ & _ & _
          & _ & _ & Hkeep & _ & Hnc & Hgone).
    simpl. intros H.
    assert (r = 1 ∧ w' = w) as [-> ->].
    { destruct H as [H | H]; [by apply Hnc | by apply Hgone]. }
    destruct Hkeep as [? ?]; [left; done |]. done.
Qed.

(** ** prepareRelocatable, as a whole *)

(** Everything one prepareRelocatable call does. *)
Lemma prepareRelocatable_characterised env objPath reloc flags s w :
  ∃ r s' w' evs,
    prepareRelocatable env objPath reloc flags s w = (r, s', w') ∧
    (r = 0 ∨ r = 1) ∧
    trace w' = trace w ++ evs ∧
    Forall (λ p, event_kind p.1 = PipelineCall) evs ∧
    (∀ p, p ≠ objPath → files w' !! p = files w !! p) ∧
    mCached s' = mCached s ∧
    mCacheDir s' = mCacheDir s ∧
    mCacheName s' = mCacheName s ∧
    ((mObjectType s' = ScriptObject.Relocatable ∧
      mStatus s' = ScriptStatus.Compiled) ∨
     mObjectType s' = mObjectType s) ∧
    (r = 0 → mErrorCode s' = mErrorCode s ∧
             mStatus s' = ScriptStatus.Compiled) ∧
    ((internalCompile env
        {| RelocModelOpt := reloc; LoadAfterCompile := false |} s w).1.1 ≠ 0 →
     r = 1 ∧ files w' = files w ∧ mObjectType s' = mObjectType s).
Proof.
  unfold prepareRelocatable.
  destruct (internalCompile_characterised env
              {| RelocModelOpt := reloc; LoadAfterCompile := false |} s w)
    as (r2 & s2 & w2 & ev2 & Hcomp & Hr2 & Hf2 & Ht2 & Hk2 & _ & _ & He2
        & _ & _ & Hca2 & Ho2 & Hd2 & Hn2 & _).
  rewrite Hcomp. simpl.
  destruct Hr2 as [-> | ->]; simpl.
  - destruct (internalCompile_success _ _ _ _ _ _ Hcomp)
      as (Hs2 & _ & _ & He2' & _).
    unfold fh_open, fh_write.
    repeat first
      [ rewrite (unlink_eq objPath)
      | progress cbv beta iota zeta
      | case_match; simplify_eq ].
    all: do 3 eexists; exists ev2; (split; [reflexivity |]);
      simpl; split_and!; try done; try congruence; auto.
    all: try (intros p Hp;
      repeat first [ rewrite lookup_delete_ne by done
                   | rewrite lookup_alter_ne by done
                   | rewrite lookup_insert_ne by done ];
      by rewrite Hf2).
    all: try (left; split; congruence).
  - destruct (getCompilerErrorMessage_frame s2)
      as (Hg1 & Hg2 & Hg3 & Hg4 & Hg5 & Hg6 & Hg7 & _).
    destruct (getCompilerErrorMessage s2) as [m s3]. simpl in *.
    eexists 1, _, _, ev2. split; [reflexivity |].
    split_and!; try done; try congruence; auto.
    all: try (intros p _; by rewrite Hf2).
    all: try (right; congruence).
    all: intros _; split_and!; congruence.
Qed.


(** X16.  prepareRelocatable does not use the cache.  The call is taken
    on any Script on which it does not call through a NULL artifact, that
    is, unless the allocation fails on a Script that is already Compiled
    (the failure log line would then evaluate getCompilerErrorMessage() on a
    NULL [mCompiled]): the Script the pipeline hands on has a compiled
    artifact whenever it is Compiled.  The call returns 0 or 1, calls
    nothing but the compile pipeline, leaves the cached artifact and the
    stored cache location alone and touches no file other than [objPath].
    When it returns 0 the Script is in state Compiled and the error code is
    the one it had before.  When the compile pipeline fails it returns 1 and
    no file at all is created or changed, nor is the object type. *)
Theorem prepareRelocatable_never_uses_cache env objPath reloc flags s w :
  (env_newScriptCompiled env = None → mStatus s ≠ ScriptStatus.Compiled) →
  ∃ r s' w' evs,
    prepareRelocatable env objPath reloc flags s w = (r, s', w') ∧
    (mStatus (internalCompile env
                {| RelocModelOpt := reloc; LoadAfterCompile := false |}
                s w).1.2 = ScriptStatus.Compiled →
     is_Some (mCompiled (internalCompile env
                {| RelocModelOpt := reloc; LoadAfterCompile := false |}
                s w).1.2)) ∧
    (r = 0 ∨ r = 1) ∧
    trace w' = trace w ++ evs ∧
    Forall (λ p, event_kind p.1 = PipelineCall) evs ∧
    (∀ p, p ≠ objPath → files w' !! p = files w !! p) ∧
    mCached s' = mCached s ∧
    mCacheDir s' = mCacheDir s ∧
    mCacheName s' = mCacheName s ∧
    (r = 0 → mErrorCode s' = mErrorCode s ∧
             mStatus s' = ScriptStatus.Compiled) ∧
    ((internalCompile env
        {| RelocModelOpt := reloc; LoadAfterCompile := false |} s w).1.1 ≠ 0 →
     r = 1 ∧ files w' = files w ∧ mObjectType s' = mObjectType s).
Proof.
  intros Hdef.
  destruct (prepareRelocatable_characterised env objPath reloc flags s w)
    as (r & s' & w' & evs & Heq & Hr & Ht & Hk & Hf & Hc & Hd & Hn & _ & Hok
        & Hfail).
  exists r, s', w', evs. split_and!; try done.
  destruct (env_newScriptCompiled env) as [c|] eqn:E.
  - destruct (internalCompile_alloc_ok env
                {| RelocModelOpt := reloc; LoadAfterCompile := false |}
                s w c E) as (r1 & s1 & w1 & rest & -> & _ & _ & Hs & _).
    intros _. exact Hs.
  - rewrite (internalCompile_alloc_fails _ _ _ _ E). simpl.
    intros Hst. by destruct (Hdef eq_refl).
Qed.

(** X17.  When the compile pipeline succeeds, the output file opens and the
    write writes all [getELFSize()] bytes, prepareRelocatable returns 0,
    sets the object type to Relocatable, and the file at [objPath] holds
    exactly the ELF image of the compiled artifact, whatever was stored
    there before. *)
Theorem prepareRelocatable_writes_elf env objPath reloc flags s w s2 w2 elf :
  internalCompile env {| RelocModelOpt := reloc; LoadAfterCompile := false |}
    s w = (0, s2, w2) →
  env_open_ok env objPath OpenMode.Write = true →
  getELF s2 = Some elf →
  getELFSize s2 = N.of_nat (length elf) →
  env_write env (Some elf) (getELFSize s2) = Z.of_nat (length elf) →
  Z.of_nat (length elf) < 2 ^ SIZE_WIDTH →
  ∃ w',
    prepareRelocatable env objPath reloc flags s w =
      (0, set_mObjectType ScriptObject.Relocatable s2, w') ∧
    files w' !! objPath = Some elf.
Proof.
  intros Hcomp Hopen Helf Hsize Hwrite Hfit.
  unfold prepareRelocatable, fh_open, fh_write.
  rewrite Hcomp, Hopen. simpl. rewrite Helf, Hwrite.
  assert (to_size_t (Z.of_nat (length elf)) = Z.of_N (getELFSize s2)) as Hn.
  { unfold to_size_t. rewrite Z.mod_small by lia. rewrite Hsize. lia. }
  apply Z.eqb_eq in Hn. 
  destruct (0 <? Z.of_nat (length elf)) eqn:Hpos; simpl; rewrite Hn; simpl.
  - eexists. split; [reflexivity |]. simpl.
    rewrite lookup_alter_eq, lookup_insert_eq. simpl.
    by rewrite Nat2Z.id, firstn_all.
  - eexists. split; [reflexivity |]. simpl. rewrite lookup_insert_eq.
    apply Z.ltb_ge in Hpos. destruct elf; [done | simpl in Hpos; lia].
Qed.


(** ** What holds along every sequence of calls *)

(** X18.  Finalization is final: from a Script whose status is not Unknown
    no sequence of calls, whatever the environments answer, leads back to
    Unknown; and from state Compiled every sequence of calls stays in state
    Compiled. *)
Theorem finalized_status_is_kept cs s w :
  mStatus s ≠ ScriptStatus.Unknown →
  mStatus (run_all cs s w).1 ≠ ScriptStatus.Unknown ∧
  (mStatus s = ScriptStatus.Compiled →
   mStatus (run_all cs s w).1 = ScriptStatus.Compiled).
Proof.
  revert s w. induction cs as [|[env c] cs IH]; intros s w Hst; simpl.
  { done. }
  destruct (run env c s w) as [s1 w1] eqn:E.
  assert (mStatus s1 ≠ ScriptStatus.Unknown) as H1.
  { pose proof (run_never_back_to_Unknown env c s w Hst) as H.
    by rewrite E in H. }
  destruct (IH s1 w1 H1) as [IH1 IH2]. split; [done |].
  intros Hc. apply IH2.
  pose proof (run_Compiled_absorbing env c s w Hc) as H. by rewrite E in H.
Qed.

Lemma only_prepare_calls_finalize_frame env call s w :
  is_finalization call = false →
  mStatus (run env call s w).1 = mStatus s ∧
  mObjectType (run env call s w).1 = mObjectType s.
Proof.
  destruct call; simpl; try discriminate; intros _;
    unfold addSourceBC, addSourceModule, addSourceFile, prepareSharedObject,
      getCompilerErrorMessage, lookup, getExportVarList, getExportFuncList,
      getExportForEachList, getPragmaList, getFuncInfoList, getObjectSlotList,
      getExportVarNameList, getExportFuncNameList, getExportForEachNameList,
      registerSymbolCallback;
    repeat case_match; simplify_eq; done.
Qed.

(** X19.  Only prepareExecutable and prepareRelocatable can finalize: every
    other call (adding a source, registering the resolver, every query,
    prepareSharedObject) leaves the status, both artifact pointers, the
    object type, the cache location and the whole outside world as they
    were. *)
Theorem only_prepare_calls_finalize env call s w :
  is_finalization call = false →
  let r := run env call s w in
  mStatus r.1 = mStatus s ∧
  mCompiled r.1 = mCompiled s ∧
  mCached r.1 = mCached s ∧
  mObjectType r.1 = mObjectType s ∧
  mCacheDir r.1 = mCacheDir s ∧
  mCacheName r.1 = mCacheName s ∧
  r.2 = w.
Proof.
  destruct call; simpl; try discriminate; intros _;
    unfold addSourceBC, addSourceModule, addSourceFile, prepareSharedObject,
      getCompilerErrorMessage, lookup, getExportVarList, getExportFuncList,
      getExportForEachList, getPragmaList, getFuncInfoList, getObjectSlotList,
      getExportVarNameList, getExportFuncNameList, getExportForEachNameList,
      registerSymbolCallback;
    repeat case_match; simplify_eq; done.
Qed.

Lemma reachable_guarded_agreement_strict s w :
  reachable_guarded s w → artifact_agreement_strict s.
Proof.
  induction 1 as [w | env c s w s' w' _ IH Hg Hrun].
  - apply Script_new_agreement.
  - pose proof (guarded_run_agreement env c s w Hg IH) as H.
    by rewrite Hrun in H.
Qed.

(** X20.  As long as prepareRelocatable is never called on an already
    finalized Script, every state a host can reach from a fresh Script has
    its artifact pointers in agreement with its status: none before
    finalization, a compiled artifact and no cached one in state Compiled,
    a cached artifact and no compiled one in state Cached. *)
Theorem guarded_states_agree s w :
  reachable_guarded s w →
  match mStatus s with
  | ScriptStatus.Unknown => mCompiled s = None ∧ mCached s = None
  | ScriptStatus.Compiled => is_Some (mCompiled s) ∧ mCached s = None
  | ScriptStatus.Cached => mCompiled s = None ∧ is_Some (mCached s)
  end.
Proof. apply reachable_guarded_agreement_strict. Qed.

(** X21.  In every state reachable from a fresh Script, with no restriction
    on the calls, a Script in state Unknown has no object type yet, and the
    object type is never SharedObject: the object type is set only by a
    prepare call that returns after the Script has left Unknown. *)
Theorem object_type_follows_finalization s w :
  reachable s w →
  (mStatus s = ScriptStatus.Unknown → mObjectType s = ScriptObject.Unknown) ∧
  mObjectType s ≠ ScriptObject.SharedObject.
Proof.
  induction 1 as [w | env c s w s' w' Hreach [IH1 IH2] Hrun].
  { done. }
  destruct (is_finalization c) eqn:Hfin.
  - destruct c; simpl in Hfin; try discriminate.
    + rewrite run_prepareRelocatable in Hrun. simplify_eq.
      destruct (prepareRelocatable_characterised env objPath reloc flags s w)
        as (r & s' & w' & evs & Heq & _ & _ & _ & _ & _ & _ & _ & Hot & _).
      rewrite Heq. simpl.
      assert (mStatus s' = ScriptStatus.Unknown → mStatus s = ScriptStatus.Unknown)
        as Hback.
      { intros Hs'. destruct (decide (mStatus s = ScriptStatus.Unknown)); [done |].
        pose proof (run_never_back_to_Unknown env
                      (DoPrepareRelocatable objPath reloc flags) s w n) as Hn.
        rewrite run_prepareRelocatable, Heq in Hn. done. }
      destruct Hot as [[Ho Hs] | Ho]; rewrite Ho.
      * split; [congruence | done].
      * split; [auto | done].
    + rewrite run_prepareExecutable in Hrun. simplify_eq.
      destruct (decide (mStatus s = ScriptStatus.Unknown)) as [Hst | Hst].
      * destruct (prepareExecutable_characterised env cacheDir cacheName
                    flags s w Hst)
          as (r & s' & w' & evs & Heq & Hr & _ & _ & _ & Hok & Hfail & _).
        rewrite Heq. simpl.
        destruct Hr as [-> | ->].
        -- destruct (Hok eq_refl) as (Ho & _ & Hs & _). rewrite Ho.
           split; [done | done].
        -- destruct (Hfail ltac:(done)) as [Ho _]. rewrite Ho.
           split; [auto | done].
      * rewrite (prepareExecutable_guard _ _ _ _ _ _ Hst). simpl. done.
  - destruct (only_prepare_calls_finalize_frame env c s w Hfin)
      as (Hs & Ho).
    rewrite Hrun in Hs, Ho. simpl in *. rewrite Hs, Ho. done.
Qed.


(** ** Destruction *)

(** Along guarded calls the status never names an artifact the Script does
    not point to: no function that delegates to the active artifact calls
    through NULL. *)
Lemma reachable_guarded_null_artifact s w :
  reachable_guarded s w → null_artifact s = false.
Proof.
  intros H. apply reachable_guarded_agreement_strict in H.
  unfold artifact_agreement_strict in H. unfold null_artifact.
  destruct (mStatus s); destruct H as [H1 H2]; try done.
  - by destruct H1 as [? ->].
  - by destruct H2 as [? ->].
Qed.

(** X22.  As long as prepareRelocatable is never called on an already
    finalized Script, what the destructor deletes is exactly what the
    Script points to at that moment: the artifact of its state and the
    descriptors in its two source slots.  (Objects the Script no longer
    points to are outside this statement: an addSource call stores the new
    descriptor over the one the slot held without deleting it.) *)
Theorem destructor_deletes_what_is_held s w :
  reachable_guarded s w → Script_destroy s = held s.
Proof.
  intros H. apply reachable_guarded_agreement_strict in H.
  unfold artifact_agreement_strict in H. unfold Script_destroy, held.
  destruct (mStatus s); destruct H as [H1 H2]; rewrite ?H1, ?H2; simpl;
    by rewrite ?app_nil_r.
Qed.

(** X23.  A prepareRelocatable call on a Script in state Cached whose
    allocation succeeds moves the Script to state Compiled while the cached
    artifact pointer still points to the old artifact; the destructor, which
    follows the status, then never deletes that cached artifact. *)
Theorem destructor_leaks_after_relocatable_on_cached env objPath reloc flags
    s w (c : ScriptCached) (a : ScriptCompiled) :
  mStatus s = ScriptStatus.Cached →
  mCached s = Some c →
  env_newScriptCompiled env = Some a →
  let s' := (prepareRelocatable env objPath reloc flags s w).1.2 in
  mCached s' = Some c ∧
  FreedCached c ∈ held s' ∧
  FreedCached c ∉ Script_destroy s'.
Proof.
  intros Hst Hc Ha. simpl.
  destruct (prepareRelocatable_alloc_ok env objPath reloc flags s w a Ha)
    as (H1 & [a' H2] & H3).
  set (s' := (prepareRelocatable env objPath reloc flags s w).1.2) in *.
  rewrite Hc in H3. split; [done |]. split.
  - unfold held. rewrite H3, H2. simpl. set_solver.
  - unfold Script_destroy. rewrite H1, H2. simpl.
    rewrite elem_of_cons, elem_of_app. unfold cxx_delete.
    intros [Hin | [Hin | Hin]]; [done | |];
      destruct (source_at _ s');
      first [ apply list_elem_of_singleton in Hin; discriminate
            | by apply elem_of_nil in Hin ].
Qed.


(** ** When the pipeline succeeds *)

(** X24.  For a Script with a primary source and no library source, once
    the allocation has succeeded the compile pipeline returns 0 exactly when
    parsing the primary source, reading its module into the artifact and
    compiling all return 0.  It then leaves in [mCompiled] the artifact as
    [compile] returned it, and in slot 0 the descriptor as [prepareModule]
    returned it; the module read is the one of the parsed descriptor, and the
    artifact it is read into carries the symbol resolver if the Script has
    one. *)
Theorem internalCompile_single_source env option s w c src0 :
  source_at 0 s = Some src0 →
  source_at 1 s = None →
  env_newScriptCompiled env = Some c →
  let c1 := if is_null (mpExtSymbolLookupFn s) then c
            else sc_registerSymbolCallback c (mpExtSymbolLookupFn s)
                   (mpExtSymbolLookupFnContext s) in
  let parsed := si_prepareModule src0 None in
  let read := sc_readModule c1 (si_getModule parsed.2) in
  let compiled := sc_compile read.2 option in
  let r := internalCompile env option s w in
  (r.1.1 = 0 ↔ parsed.1 = 0 ∧ read.1 = 0 ∧ compiled.1 = 0) ∧
  (r.1.1 = 0 →
     mCompiled r.1.2 = Some compiled.2 ∧
     source_at 0 r.1.2 = Some parsed.2 ∧
     source_at 1 r.1.2 = None).
Proof.
  destruct s as [ec st ot mc mca srcs cd cn slot fn ctx].
  unfold source_at. simpl. intros H0 H1 Halloc.
  unfold internalCompile, source_at, set_source. simpl.
  rewrite Halloc. simpl.
  destruct srcs as [|a [|b l]]; simpl in *; simplify_eq;
    destruct (is_null fn); simpl;
    destruct (si_prepareModule src0 None) as [r0 src0']; simpl;
    destruct (Z.eqb_spec r0 0); simpl;
    try (split; [split; [discriminate | intros (? & _); done] | discriminate]);
    subst r0;
    match goal with
    | |- context [sc_readModule ?x ?m] =>
        destruct (sc_readModule x m) as [r1 c2]; simpl;
        destruct (Z.eqb_spec r1 0); simpl
    end;
    try (split; [split; [discriminate | intros (_ & ? & _); done]
                | discriminate]);
    subst r1;
    match goal with
    | |- context [sc_compile ?x ?o] =>
        destruct (sc_compile x o) as [r2 c3]; simpl;
        destruct (Z.eqb_spec r2 0); simpl
    end;
    try (split; [split; [discriminate | intros (_ & _ & ?); done]
                | discriminate]);
    subst r2; done.
Qed.

End ScriptExtras.

(** * Concrete runs of the further properties *)

Lemma toy_cached_state_reachable_guarded :
  reachable_guarded Toy.cached_state.1 Toy.cached_state.2.
Proof.
  apply (reachable_guarded_step Toy.hit_env
           (@DoPrepareExecutable Toy.backend (Some "/tmp/c") (Some "s1") 0)
           Toy.with_source Toy.cached_world).
  - apply (reachable_guarded_step Toy.miss_env
             (@DoAddSourceBC Toy.backend 0 (Some "main.bc") (Some []) 0 0)
             Script_new Toy.cached_world);
      [apply reachable_guarded_new | exact I | reflexivity].
  - exact I.
  - vm_compute. reflexivity.
Qed.

Lemma addSource_stores_descriptor_witness :
  mStatus (@Script_new Toy.backend) = ScriptStatus.Unknown ∧
  (0 < length (mSourceList (@Script_new Toy.backend)))%nat ∧
  stat "/tmp/c/s1.o" Toy.cached_world = 0 ∧
  source_at 0 (addSourceBC Toy.miss_env 0 (Some "main.bc") (Some []) 0 0
                 Script_new).2 = Some true ∧
  source_at 1 (addSourceBC Toy.miss_env 0 (Some "main.bc") (Some []) 0 0
                 Script_new).2 = None.
Proof.
  assert (mStatus (@Script_new Toy.backend) = ScriptStatus.Unknown) as H1
    by reflexivity.
  assert (0 < length (mSourceList (@Script_new Toy.backend)))%nat as H2
    by (simpl; lia).
  assert (stat "/tmp/c/s1.o" Toy.cached_world = 0) as H3
    by (vm_compute; reflexivity).
  split; [exact H1 |]. split; [exact H2 |]. split; [exact H3 |].
  destruct (addSource_stores_descriptor Toy.miss_env 0%nat "main.bc" [] 0%N
              tt "/tmp/c/s1.o" 0%N Script_new Toy.cached_world H1 H2 H3)
    as ((Hs & Ho & _) & _).
  split; [exact Hs | apply (Ho 1%nat); lia].
Defined.

Lemma addSource_rejects_bad_argument_witness :
  mStatus (@Script_new Toy.backend) = ScriptStatus.Unknown ∧
  stat "/nowhere" Toy.empty_world ≠ 0 ∧
  addSourceFile Toy.miss_env 0 (Some "/nowhere") 0 Script_new Toy.empty_world
    = (1, set_mErrorCode BCC_INVALID_VALUE Script_new).
Proof.
  assert (stat "/nowhere" Toy.empty_world ≠ 0) as H2
    by (vm_compute; discriminate).
  split; [reflexivity |]. split; [exact H2 |].
  destruct (addSource_rejects_bad_argument Toy.miss_env 0%nat "main.bc" 0%N
              "/nowhere" 0%N Script_new Toy.empty_world eq_refl H2)
    as (_ & _ & _ & H & _).
  exact H.
Defined.

Lemma internalCompile_steps_in_order_witness :
  ∃ s' w',
    internalCompile Toy.miss_env CompilerOption_default
      Toy.with_bad_source Toy.empty_world = (1, s', w') ∧
    pipeline_results Toy.miss_env CompilerOption_default Toy.with_bad_source
      = [(CallNewScriptCompiled, 0); (CallPrepareModule 0, 1);
         (CallReadModule, 0); (CallCompile, 0)] ∧
    (trace w').*1 = [CallNewScriptCompiled; CallPrepareModule 0].
Proof.
  destruct (internalCompile_steps_in_order Toy.miss_env
              CompilerOption_default Toy.with_bad_source Toy.empty_world)
    as (r & s' & w' & evs & Heq & _ & Ht & Hstop & _).
  assert (r = 1) as ->.
  { apply (f_equal (λ x, x.1.1)) in Heq. vm_compute in Heq. congruence. }
  exists s', w'. split; [exact Heq |].
  split; [vm_compute; reflexivity |].
  rewrite Ht. simpl. rewrite Hstop. vm_compute. reflexivity.
Defined.

Lemma internalCompile_without_primary_source_witness :
  source_at 0 (@Script_new Toy.backend) = None ∧
  env_newScriptCompiled Toy.miss_env = Some Toy.fresh ∧
  ∃ s',
    internalCompile Toy.miss_env CompilerOption_default Script_new
      Toy.empty_world =
      (1, s', log CallNewScriptCompiled ScriptStatus.Unknown Toy.empty_world) ∧
    mStatus s' = ScriptStatus.Compiled ∧
    mErrorCode s' = BCC_NO_ERROR.
Proof.
  split; [reflexivity |]. split; [reflexivity |].
  destruct (internalCompile_without_primary_source Toy.miss_env
              CompilerOption_default Script_new Toy.empty_world Toy.fresh
              eq_refl eq_refl) as (s' & Heq & Hst & _ & He & _).
  exists s'. split; [exact Heq |]. split; [exact Hst | exact He].
Defined.

Lemma prepareExecutable_registers_on_success_only_witness :
  mStatus Toy.with_source = ScriptStatus.Unknown ∧
  ∃ r s' w' evs,
    prepareExecutable Toy.miss_env (Some "/tmp/c") (Some "s1") 0
      Toy.with_source Toy.empty_world = (r, s', w') ∧
    (r = 0 ∨ r = 1) ∧
    trace w' = trace Toy.empty_world ++ evs.
Proof.
  split; [reflexivity |].
  destruct (prepareExecutable_registers_on_success_only Toy.miss_env
              (Some "/tmp/c") (Some "s1") 0%N Toy.with_source Toy.empty_world
              eq_refl) as (r & s' & w' & evs & Heq & Hr & Ht & _).
  exists r, s', w', evs. split; [exact Heq |]. split; [exact Hr | exact Ht].
Defined.

Lemma prepareExecutable_without_cache_witness :
  mStatus Toy.with_source = ScriptStatus.Unknown ∧
  ∃ r s' w' evs,
    prepareExecutable Toy.hit_env (Some "") (Some "s1") 0
      Toy.with_source Toy.cached_world = (r, s', w') ∧
    files w' = files Toy.cached_world ∧
    trace w' = trace Toy.cached_world ++ evs ∧
    mStatus s' ≠ ScriptStatus.Cached.
Proof.
  split; [reflexivity |].
  destruct (prepareExecutable_without_cache Toy.hit_env (Some "") (Some "s1")
              0%N Toy.with_source Toy.cached_world eq_refl)
    as (r & s' & w' & evs & Heq & Hf & Ht & _ & Hs).
  { right. exists "", "s1". split; [reflexivity |].
    split; [reflexivity | left; reflexivity]. }
  exists r, s', w', evs.
  split; [exact Heq |]. split; [exact Hf |]. split; [exact Ht | exact Hs].
Defined.

Lemma prepareExecutable_touches_only_cache_files_witness :
  mStatus Toy.with_source = ScriptStatus.Unknown ∧
  files (prepareExecutable Toy.miss_env (Some "/tmp/c") (Some "s1") 0
           Toy.with_source Toy.cached_world).2 !! "/tmp/out.o" =
  files Toy.cached_world !! "/tmp/out.o".
Proof.
  split; [reflexivity |].
  apply (prepareExecutable_touches_only_cache_files Toy.miss_env
           (Some "/tmp/c") (Some "s1") 0%N Toy.with_source Toy.cached_world
           "/tmp/out.o" eq_refl); vm_compute; discriminate.
Defined.

Lemma prepareExecutable_cache_hit_witness :
  mStatus Toy.with_source = ScriptStatus.Unknown ∧
  (internalLoadCache Toy.hit_env (Some "/tmp/c") (Some "s1") false
     Toy.with_source Toy.cached_world).1.1 = 0 ∧
  ∃ s' w',
    prepareExecutable Toy.hit_env (Some "/tmp/c") (Some "s1") 0
      Toy.with_source Toy.cached_world = (0, s', w') ∧
    mStatus s' = ScriptStatus.Cached ∧
    files w' = files Toy.cached_world.
Proof.
  assert ((internalLoadCache Toy.hit_env (Some "/tmp/c") (Some "s1") false
             Toy.with_source Toy.cached_world).1.1 = 0) as H
    by (vm_compute; reflexivity).
  split; [reflexivity |]. split; [exact H |].
  destruct (prepareExecutable_cache_hit Toy.hit_env (Some "/tmp/c")
              (Some "s1") 0%N Toy.with_source Toy.cached_world eq_refl H)
    as (s' & w' & evs & Heq & Hs & _ & _ & _ & Hf & _).
  exists s', w'. split; [exact Heq |]. split; [exact Hs | exact Hf].
Defined.

Lemma prepareExecutable_compile_failure_witness :
  mStatus Toy.with_bad_source = ScriptStatus.Unknown ∧
  (internalCompile Toy.miss_env CompilerOption_default
     Toy.with_bad_source Toy.empty_world).1.1 ≠ 0 ∧
  ∃ s' w',
    prepareExecutable Toy.miss_env None None 0
      Toy.with_bad_source Toy.empty_world = (1, s', w') ∧
    files w' = files Toy.empty_world ∧
    mStatus s' = ScriptStatus.Compiled ∧
    mErrorCode s' = BCC_NO_ERROR.
Proof.
  pose (C := internalCompile Toy.miss_env CompilerOption_default
               Toy.with_bad_source Toy.empty_world).
  assert (C.1.1 ≠ 0) as Hr by (vm_compute; discriminate).
  split; [reflexivity |]. split; [exact Hr |].
  destruct (prepareExecutable_compile_failure Toy.miss_env None None 0%N
              Toy.with_bad_source Toy.empty_world
              Toy.with_bad_source Toy.empty_world C.1.1 C.1.2 C.2)
    as (s' & Heq & Hf & _ & Hm).
  - reflexivity.
  - reflexivity.
  - vm_compute. reflexivity.
  - exact Hr.
  - simpl in Hm. destruct Hm as (Hs & _ & He).
    exists s', C.2. split; [exact Heq |]. split; [exact Hf |].
    split; [exact Hs | exact He].
Defined.



Lemma prepareRelocatable_never_uses_cache_witness :
  (env_newScriptCompiled Toy.no_alloc_env = None →
   mStatus Toy.with_source ≠ ScriptStatus.Compiled) ∧
  ∃ s' w',
    prepareRelocatable Toy.no_alloc_env "/tmp/out.o" tt 0
      Toy.with_source Toy.empty_world = (1, s', w') ∧
    files w' = files Toy.empty_world ∧
    mObjectType s' = mObjectType Toy.with_source.
Proof.
  split; [intros _; vm_compute; discriminate |].
  destruct (prepareRelocatable_never_uses_cache Toy.no_alloc_env "/tmp/out.o"
              tt 0 Toy.with_source Toy.empty_world)
    as (r & s' & w' & evs & Heq & _ & _ & _ & _ & _ & _ & _ & _ & _ & Hfail).
  - intros _. vm_compute. discriminate.
  - destruct Hfail as (-> & Hf & Ho); [vm_compute; discriminate |].
    exists s', w'. split_and!; assumption.
Defined.

Lemma prepareRelocatable_writes_elf_witness :
  (internalCompile Toy.miss_env Toy.reloc_option
     Toy.with_source Toy.empty_world).1.1 = 0 ∧
  env_open_ok Toy.miss_env "/tmp/out.o" OpenMode.Write = true ∧
  ∃ s' w',
    prepareRelocatable Toy.miss_env "/tmp/out.o" tt 0
      Toy.with_source Toy.empty_world = (0, s', w') ∧
    mObjectType s' = ScriptObject.Relocatable ∧
    files w' !! "/tmp/out.o" = Some Toy.elf4.
Proof.
  pose (C := internalCompile Toy.miss_env Toy.reloc_option
               Toy.with_source Toy.empty_world).
  split; [vm_compute; reflexivity |]. split; [reflexivity |].
  destruct (prepareRelocatable_writes_elf Toy.miss_env "/tmp/out.o" tt 0%N
              Toy.with_source Toy.empty_world C.1.2 C.2 Toy.elf4)
    as (w' & Heq & Hf).
  - vm_compute. reflexivity.
  - reflexivity.
  - vm_compute. reflexivity.
  - vm_compute. reflexivity.
  - vm_compute. reflexivity.
  - vm_compute. reflexivity.
  - eexists _, w'. split; [exact Heq |]. split; [reflexivity | exact Hf].
Defined.

Lemma finalized_status_is_kept_witness :
  mStatus Toy.cached_script ≠ ScriptStatus.Unknown ∧
  mStatus (run_all Toy.relocatable_twice Toy.cached_script
             Toy.cached_world).1 ≠ ScriptStatus.Unknown.
Proof.
  assert (mStatus Toy.cached_script ≠ ScriptStatus.Unknown) as H
    by (vm_compute; discriminate).
  split; [exact H |].
  apply (finalized_status_is_kept Toy.relocatable_twice Toy.cached_script
           Toy.cached_world H).
Defined.

Lemma only_prepare_calls_finalize_witness :
  is_finalization (@DoRegisterSymbolCallback Toy.backend 4096%N 8192%N) = false ∧
  mStatus (run Toy.miss_env (DoRegisterSymbolCallback 4096%N 8192%N)
             Toy.cached_script Toy.cached_world).1 = mStatus Toy.cached_script ∧
  mCached (run Toy.miss_env (DoRegisterSymbolCallback 4096%N 8192%N)
             Toy.cached_script Toy.cached_world).1 = mCached Toy.cached_script.
Proof.
  split; [reflexivity |].
  destruct (only_prepare_calls_finalize Toy.miss_env
              (DoRegisterSymbolCallback 4096%N 8192%N) Toy.cached_script
              Toy.cached_world eq_refl) as (Hs & _ & Hc & _).
  split; [exact Hs | exact Hc].
Defined.

Lemma guarded_states_agree_witness :
  reachable_guarded Toy.cached_state.1 Toy.cached_state.2 ∧
  mCompiled Toy.cached_state.1 = None ∧
  is_Some (mCached Toy.cached_state.1).
Proof.
  split; [exact toy_cached_state_reachable_guarded |].
  pose proof (guarded_states_agree Toy.cached_state.1 Toy.cached_state.2
                toy_cached_state_reachable_guarded) as H.
  assert (mStatus Toy.cached_state.1 = ScriptStatus.Cached) as Hs
    by (vm_compute; reflexivity).
  rewrite Hs in H. exact H.
Defined.

Lemma object_type_follows_finalization_witness :
  reachable Toy.two_artifacts_state.1 Toy.two_artifacts_state.2 ∧
  mObjectType Toy.two_artifacts_state.1 ≠ ScriptObject.SharedObject.
Proof.
  assert (reachable Toy.two_artifacts_state.1 Toy.two_artifacts_state.2) as H.
  { unfold Toy.two_artifacts_state. apply run_all_reachable, reachable_new. }
  split; [exact H |].
  apply (object_type_follows_finalization _ _ H).
Defined.

Lemma destructor_deletes_what_is_held_witness :
  reachable_guarded Toy.cached_state.1 Toy.cached_state.2 ∧
  Script_destroy Toy.cached_state.1 =
    [@FreedCached Toy.backend Toy.from_cache; @FreedSource Toy.backend true].
Proof.
  split; [exact toy_cached_state_reachable_guarded |].
  rewrite (destructor_deletes_what_is_held
             Toy.cached_state.1 Toy.cached_state.2
             toy_cached_state_reachable_guarded).
  vm_compute. reflexivity.
Defined.

Lemma destructor_leaks_after_relocatable_on_cached_witness :
  mStatus Toy.cached_script = ScriptStatus.Cached ∧
  mCached Toy.cached_script = Some Toy.from_cache ∧
  env_newScriptCompiled Toy.miss_env = Some Toy.fresh ∧
  @FreedCached Toy.backend Toy.from_cache ∉
    Script_destroy (prepareRelocatable Toy.miss_env "/tmp/out.o" tt 0
                      Toy.cached_script Toy.cached_world).1.2.
Proof.
  assert (mStatus Toy.cached_script = ScriptStatus.Cached) as H1
    by (vm_compute; reflexivity).
  assert (mCached Toy.cached_script = Some Toy.from_cache) as H2
    by (vm_compute; reflexivity).
  split; [exact H1 |]. split; [exact H2 |]. split; [reflexivity |].
  apply (destructor_leaks_after_relocatable_on_cached Toy.miss_env
           "/tmp/out.o" tt 0%N Toy.cached_script Toy.cached_world
           Toy.from_cache Toy.fresh H1 H2 eq_refl).
Defined.

Lemma internalCompile_single_source_witness :
  source_at 0 Toy.with_source = Some true ∧
  source_at 1 Toy.with_source = None ∧
  env_newScriptCompiled Toy.miss_env = Some Toy.fresh ∧
  (internalCompile Toy.miss_env CompilerOption_default
     Toy.with_source Toy.empty_world).1.1 = 0 ∧
  mCompiled (internalCompile Toy.miss_env CompilerOption_default
               Toy.with_source Toy.empty_world).1.2 = Some Toy.fresh.
Proof.
  split; [reflexivity |]. split; [reflexivity |]. split; [reflexivity |].
  destruct (internalCompile_single_source Toy.miss_env CompilerOption_default
              Toy.with_source Toy.empty_world Toy.fresh true
              eq_refl eq_refl eq_refl) as [Hiff Hres].
  assert ((internalCompile Toy.miss_env CompilerOption_default
             Toy.with_source Toy.empty_world).1.1 = 0) as Hr.
  { apply Hiff. vm_compute. repeat split. }
  split; [exact Hr |].
  destruct (Hres Hr) as (Hc & _). exact Hc.
Defined.
